(** * Azure AI Image Analysis facade (app.js): a shallow embedding

    The program is an Express application with one validating middleware
    ([checkImageUrl]), one error normaliser ([processError]), seven POST
    routes that each await one call of the Computer Vision client, and one
    GET route.  The embedding follows the source function by function:

    - JavaScript values are an inductive type [value];
    - a request is processed by state passing over a [world] that holds the
      request object, the response object, the console and the log of the
      calls made to the vision client;
    - [throw], [try]/[catch] and [await] are the operations of a small
      monad [M];
    - the vision client is an oracle that settles each call;
    - [new URL(x)] is the URL parser of the URL Standard, run without a
      base URL. *)

From Stdlib Require Import List String Ascii Bool ZArith NArith Lia.
From Stdlib Require Import PrimFloat.
Import ListNotations.

Local Open Scope list_scope.
Local Open Scope string_scope.

(** ** JavaScript values *)

(** Strings are sequences of bytes: the UTF-8 form of the JavaScript
    string.  Numbers are IEEE-754 doubles.  [VError] is an instance of
    [Error] (or of a subclass), of which the program only ever reads
    [message]. *)
#[warnings="-register-all"]
Inductive value : Type :=
| VUndefined
| VNull
| VBool (b : bool)
| VNumber (n : float)
| VString (s : string)
| VArray (items : list value)
| VObject (fields : list (string * value))
| VError (name message : string).

(** What the host platform supplies and this development does not define:
    the decimal rendering of a double ([Number::toString]) and the Unicode
    [ToASCII] operation of UTS #46, which the URL parser consults for
    domains that are not plain ASCII. *)
Class Engine : Type := {
  Number_toString : float -> string;
  unicode_ToASCII : string -> option string
}.

(** [ToBoolean]: [undefined], [null], [false], [+0], [-0], [NaN] and the
    empty string are falsy, everything else is truthy. *)
Definition ToBoolean (v : value) : bool :=
  match v with
  | VUndefined | VNull => false
  | VBool b => b
  | VNumber n => negb (PrimFloat.eqb n PrimFloat.zero || PrimFloat.is_nan n)
  | VString s => negb (String.eqb s "")
  | VArray _ | VObject _ | VError _ _ => true
  end.

(** [a || b] *)
Definition js_or (a b : value) : value := if ToBoolean a then a else b.

Definition is_nullish (v : value) : bool :=
  match v with VUndefined | VNull => true | _ => false end.

Fixpoint lookup (k : string) (fields : list (string * value)) : option value :=
  match fields with
  | [] => None
  | (k', v) :: rest => if String.eqb k k' then Some v else lookup k rest
  end.

Definition TypeError (message : string) : value := VError "TypeError" message.

(** How an evaluation ends: with a value, with a thrown value, or not at
    all, when it is suspended at an [await] whose promise never settles. *)
Inductive completion (A : Type) : Type :=
| Normal (a : A)
| Throw (e : value)
| Pending.
Arguments Normal {A} a.
Arguments Throw {A} e.
Arguments Pending {A}.

(** [v.k] for the property names the program reads ([imageUrl], [message],
    [tags], [faces], [color]): none of them is inherited from a built-in
    prototype, so the read finds an own property or yields [undefined]; on
    [undefined] and [null] it throws a [TypeError]. *)
Definition Get (v : value) (k : string) : completion value :=
  match v with
  | VUndefined =>
      Throw (TypeError ("Cannot read properties of undefined (reading '" ++ k ++ "')"))
  | VNull =>
      Throw (TypeError ("Cannot read properties of null (reading '" ++ k ++ "')"))
  | VObject fields =>
      match lookup k fields with Some x => Normal x | None => Normal VUndefined end
  | VError _ message =>
      if String.eqb k "message" then Normal (VString message) else Normal VUndefined
  | VBool _ | VNumber _ | VString _ | VArray _ => Normal VUndefined
  end.

(** [const { k } = v] *)
Definition Destructure (v : value) (k : string) : completion value :=
  match v with
  | VUndefined =>
      Throw (TypeError ("Cannot destructure property '" ++ k ++ "' of 'req.body' as it is undefined."))
  | VNull =>
      Throw (TypeError ("Cannot destructure property '" ++ k ++ "' of 'req.body' as it is null."))
  | _ => Get v k
  end.

Fixpoint join (sep : string) (l : list string) : string :=
  match l with
  | [] => ""
  | [s] => s
  | s :: rest => s ++ sep ++ join sep rest
  end.

Fixpoint sequence {A} (l : list (completion A)) : completion (list A) :=
  match l with
  | [] => Normal []
  | Normal a :: rest =>
      match sequence rest with
      | Normal r => Normal (a :: r)
      | Throw e => Throw e
      | Pending => Pending
      end
  | Throw e :: _ => Throw e
  | Pending :: _ => Pending
  end.

Section WithEngine.
Context {engine : Engine}.

(** [ToString].  An object converts through [Object.prototype.toString]
    unless it has an own [toString] property: in a value that came out of
    [JSON.parse] such a property is never callable, and neither it nor the
    inherited [valueOf] yields a primitive, so the conversion throws.  An
    array converts through [join(',')], where [undefined] and [null]
    elements give the empty string. *)
Fixpoint ToString (v : value) : completion string :=
  match v with
  | VUndefined => Normal "undefined"
  | VNull => Normal "null"
  | VBool true => Normal "true"
  | VBool false => Normal "false"
  | VNumber n => Normal (Number_toString n)
  | VString s => Normal s
  | VArray items =>
      match sequence (map (fun x => if is_nullish x then Normal "" else ToString x) items) with
      | Normal parts => Normal (join "," parts)
      | Throw e => Throw e
      | Pending => Pending
      end
  | VObject fields =>
      match lookup "toString" fields with
      | Some _ => Throw (TypeError "Cannot convert object to primitive value")
      | None => Normal "[object Object]"
      end
  | VError name message =>
      Normal (if String.eqb name "" then message
              else if String.eqb message "" then name
              else name ++ ": " ++ message)
  end.

End WithEngine.

(** ** The URL parser

    [new URL(input)] with one argument runs the basic URL parser of the URL
    Standard with no base URL and no state override, and throws a
    [TypeError] when the parser returns failure.  The parser is written
    state by state.  The states after the host and the port (path start,
    path, opaque path, query, fragment) never return failure, and
    [checkImageUrl] discards the object it constructs, so the record below
    keeps the scheme, the host and the port only. *)
Module URL.

Local Open Scope char_scope.
Local Open Scope N_scope.

Definition code (c : ascii) : N := N_of_ascii c.

Definition between (lo hi : ascii) (c : ascii) : bool :=
  (code lo <=? code c) && (code c <=? code hi).

Definition is_c0_control_or_space (c : ascii) : bool := code c <=? 32.
Definition is_tab_or_newline (c : ascii) : bool :=
  (code c =? 9) || (code c =? 10) || (code c =? 13).
Definition is_upper_alpha := between "A" "Z".
Definition is_lower_alpha := between "a" "z".
Definition is_alpha (c : ascii) : bool := is_upper_alpha c || is_lower_alpha c.
Definition is_digit := between "0" "9".
Definition is_alphanumeric (c : ascii) : bool := is_alpha c || is_digit c.
Definition is_hex_digit (c : ascii) : bool :=
  is_digit c || between "A" "F" c || between "a" "f" c.
Definition is_octal_digit := between "0" "7".
Definition is_ascii (c : ascii) : bool := code c <? 128.

Definition lowercase (c : ascii) : ascii :=
  if is_upper_alpha c then ascii_of_N (code c + 32) else c.

Definition digit_value (c : ascii) : N := code c - code "0".
Definition hex_value (c : ascii) : N :=
  if is_digit c then digit_value c
  else if between "A" "F" c then code c - code "A" + 10
  else code c - code "a" + 10.

(** The integer a digit string denotes in radix [R]. *)
Definition number_in_radix (R : N) (digits : list ascii) : N :=
  fold_left (fun acc c => acc * R + hex_value c) digits 0.

Definition is_empty {A} (l : list A) : bool :=
  match l with [] => true | _ => false end.

Fixpoint strip_leading (l : list ascii) : list ascii :=
  match l with
  | c :: rest => if is_c0_control_or_space c then strip_leading rest else l
  | [] => []
  end.

Definition strip (l : list ascii) : list ascii :=
  rev (strip_leading (rev (strip_leading l))).

(** Strictly split on a delimiter: always at least one item. *)
Fixpoint strictly_split (sep : ascii) (l : list ascii) : list (list ascii) :=
  match l with
  | [] => [[]]
  | c :: rest =>
      if Ascii.eqb c sep then [] :: strictly_split sep rest
      else match strictly_split sep rest with
           | item :: items => (c :: item) :: items
           | [] => [[c]]
           end
  end.

Fixpoint starts_with (prefix l : list ascii) : bool :=
  match prefix, l with
  | [], _ => true
  | p :: prefix', c :: rest => Ascii.eqb p c && starts_with prefix' rest
  | _ :: _, [] => false
  end.

Inductive host : Type :=
| Domain (name : string)
| IPv4 (address : N)
| IPv6 (pieces : list N)
| OpaqueHost (name : string)
| EmptyHost.

Record url : Type := {
  scheme : string;
  host_of : option host;
  port : option N
}.

Definition default_port (scheme : string) : option N :=
  if String.eqb scheme "ftp" then Some 21
  else if String.eqb scheme "http" then Some 80
  else if String.eqb scheme "https" then Some 443
  else if String.eqb scheme "ws" then Some 80
  else if String.eqb scheme "wss" then Some 443
  else None.

Definition is_special (scheme : string) : bool :=
  String.eqb scheme "file"
  || match default_port scheme with Some _ => true | None => false end.

(** *** Hosts *)

Definition is_forbidden_host_code_point (c : ascii) : bool :=
  existsb (N.eqb (code c))
    [0; 9; 10; 13; 32; code "#"; code "/"; code ":"; code "<"; code ">";
     code "?"; code "@"; code "["; code "\"; code "]"; code "^"; code "|"].

Definition is_forbidden_domain_code_point (c : ascii) : bool :=
  is_forbidden_host_code_point c
  || (code c <=? 31) || Ascii.eqb c "%" || (code c =? 127).

Fixpoint percent_decode (l : list ascii) : list ascii :=
  match l with
  | [] => []
  | c :: rest =>
      if Ascii.eqb c "%" then
        match rest with
        | h :: l' :: rest' =>
            if is_hex_digit h && is_hex_digit l'
            then ascii_of_N (hex_value h * 16 + hex_value l') :: percent_decode rest'
            else c :: percent_decode rest
        | _ => c :: percent_decode rest
        end
      else c :: percent_decode rest
  end.

Definition hex_digit (n : N) : ascii :=
  if n <? 10 then ascii_of_N (code "0" + n) else ascii_of_N (code "A" + n - 10).

(** UTF-8 percent-encode with the C0 control percent-encode set: C0
    controls and everything above U+007E. *)
Definition percent_encode_c0 (l : list ascii) : list ascii :=
  flat_map (fun c =>
    if (code c <=? 31) || (126 <? code c)
    then ["%"; hex_digit (code c / 16); hex_digit (code c mod 16)]
    else [c]) l.

Definition opaque_host_parse (input : list ascii) : option host :=
  if existsb is_forbidden_host_code_point input then None
  else match percent_encode_c0 input with
       | [] => Some EmptyHost
       | encoded => Some (OpaqueHost (string_of_list_ascii encoded))
       end.

(** The IPv4 number parser: hexadecimal after [0x], octal after a leading
    [0], decimal otherwise. *)
Definition ipv4_number_parse (input : list ascii) : option N :=
  match input with
  | [] => None
  | "0" :: x :: digits =>
      if Ascii.eqb x "x" || Ascii.eqb x "X" then
        if forallb is_hex_digit digits then Some (number_in_radix 16 digits) else None
      else
        if forallb is_octal_digit (x :: digits)
        then Some (number_in_radix 8 (x :: digits)) else None
  | digits =>
      if forallb is_digit digits then Some (number_in_radix 10 digits) else None
  end.

Fixpoint option_all {A} (l : list (option A)) : option (list A) :=
  match l with
  | [] => Some []
  | Some a :: rest =>
      match option_all rest with Some r => Some (a :: r) | None => None end
  | None :: _ => None
  end.

(** Drop the last item when it is empty and is not the only one. *)
Definition drop_empty_last (parts : list (list ascii)) : list (list ascii) :=
  match rev parts with
  | [] :: ((_ :: _) as others) => rev others
  | _ => parts
  end.

Definition ends_in_a_number (input : list ascii) : bool :=
  let parts := strictly_split "." input in
  match rev parts with
  | [[]] => false
  | _ =>
      let last := List.last (drop_empty_last parts) [] in
      (negb (is_empty last) && forallb is_digit last)
      || match ipv4_number_parse last with Some _ => true | None => false end
  end.

Definition ipv4_parse (input : list ascii) : option N :=
  let parts := drop_empty_last (strictly_split "." input) in
  if (4 <? List.length parts)%nat then None
  else
    match option_all (map ipv4_number_parse parts) with
    | None => None
    | Some numbers =>
        match rev numbers with
        | [] => None
        | last :: front =>
            if existsb (fun n => 255 <? n) front then None
            else if 256 ^ (5 - N.of_nat (List.length numbers)) <=? last then None
            else
              Some (fst (fold_left
                           (fun '(ipv4, counter) n => (ipv4 + n * 256 ^ (3 - counter), counter + 1))
                           (rev front) (last, 0)))
        end
    end.

(** An IPv6 address is a list of eight 16-bit pieces. *)
Definition piece (i : nat) (address : list N) : N := nth i address 0.

Definition update (i : nat) (x : N) (address : list N) : list N :=
  (firstn i address ++ x :: skipn (S i) address)%list.

Definition swap (i j : nat) (address : list N) : list N :=
  update i (piece j address) (update j (piece i address) address).

(** The dotted-decimal tail of an IPv6 address.  [ipv4Piece] is the number
    being read ([None] before its first digit), [numbersSeen] the count of
    the numbers completed so far. *)
Fixpoint ipv4_in_ipv6 (input : list ascii) (ipv4Piece : option N)
    (numbersSeen pieceIndex : nat) (address : list N) : option (list N * nat) :=
  let store p :=
    (update pieceIndex (piece pieceIndex address * 256 + p) address,
     if (numbersSeen =? 1)%nat || (numbersSeen =? 3)%nat then S pieceIndex else pieceIndex) in
  match input with
  | [] =>
      match ipv4Piece with
      | Some p => if (S numbersSeen =? 4)%nat then Some (store p) else None
      | None => None
      end
  | c :: rest =>
      match ipv4Piece with
      | None =>
          if is_digit c
          then ipv4_in_ipv6 rest (Some (digit_value c)) numbersSeen pieceIndex address
          else None
      | Some p =>
          if is_digit c then
            if p =? 0 then None
            else if 255 <? p * 10 + digit_value c then None
            else ipv4_in_ipv6 rest (Some (p * 10 + digit_value c)) numbersSeen pieceIndex address
          else if Ascii.eqb c "." && (S numbersSeen <? 4)%nat then
            match rest with
            | d :: rest' =>
                if is_digit d
                then ipv4_in_ipv6 rest' (Some (digit_value d)) (S numbersSeen)
                       (snd (store p)) (fst (store p))
                else None
            | [] => None
            end
          else None
      end
  end.

(** The main loop of the IPv6 parser, one code point at a time.  [reading]
    is [Some (value, length)] inside a run of hexadecimal digits that
    started at [piece_start], and [None] at the start of a piece. *)
Fixpoint ipv6_loop (input piece_start : list ascii) (reading : option (N * nat))
    (pieceIndex : nat) (compress : option nat) (address : list N)
    : option (list N * nat * option nat) :=
  match input with
  | [] =>
      match reading with
      | None => Some (address, pieceIndex, compress)
      | Some (value, _) => Some (update pieceIndex value address, S pieceIndex, compress)
      end
  | c :: rest =>
      match reading with
      | None =>
          if (pieceIndex =? 8)%nat then None
          else if Ascii.eqb c ":" then
            match compress with
            | Some _ => None
            | None => ipv6_loop rest rest None (S pieceIndex) (Some (S pieceIndex)) address
            end
          else if is_hex_digit c
          then ipv6_loop rest input (Some (hex_value c, 1%nat)) pieceIndex compress address
          else None
      | Some (value, length) =>
          if (length <? 4)%nat && is_hex_digit c then
            ipv6_loop rest piece_start (Some (value * 16 + hex_value c, S length))
              pieceIndex compress address
          else if Ascii.eqb c "." then
            if (6 <? pieceIndex)%nat then None
            else match ipv4_in_ipv6 piece_start None 0 pieceIndex address with
                 | Some (address', pieceIndex') => Some (address', pieceIndex', compress)
                 | None => None
                 end
          else if Ascii.eqb c ":" then
            match rest with
            | [] => None
            | _ :: _ =>
                ipv6_loop rest rest None (S pieceIndex) compress
                  (update pieceIndex value address)
            end
          else None
      end
  end.

Fixpoint compress_swaps (swaps pieceIndex compress : nat) (address : list N) : list N :=
  match swaps, pieceIndex with
  | S swaps', S pieceIndex' =>
      compress_swaps swaps' pieceIndex' compress (swap pieceIndex (compress + swaps') address)
  | _, _ => address
  end.

Definition ipv6_parse (input : list ascii) : option (list N) :=
  let start :=
    match input with
    | ":" :: ":" :: rest => Some (rest, 1%nat, Some 1%nat)
    | ":" :: _ => None
    | _ => Some (input, 0%nat, None)
    end in
  match start with
  | None => None
  | Some (input', pieceIndex, compress) =>
      match ipv6_loop input' input' None pieceIndex compress (repeat 0 8) with
      | None => None
      | Some (address, pieceIndex', Some compress') =>
          Some (compress_swaps (pieceIndex' - compress') 7 compress' address)
      | Some (address, pieceIndex', None) =>
          if (pieceIndex' =? 8)%nat then Some address else None
      end
  end.

Section Parser.
Context {engine : Engine}.

Definition is_punycode_label (label : list ascii) : bool :=
  starts_with ["x"; "n"; "-"; "-"] (map lowercase label).

(** Domain to ASCII, not strict.  For an ASCII domain none of whose labels
    starts with [xn--] the Unicode operation amounts to lowercasing; every
    other domain goes to the engine, as its UTF-8 bytes. *)
Definition domain_to_ASCII (domain : list ascii) : option (list ascii) :=
  let result :=
    if forallb is_ascii domain
       && negb (existsb is_punycode_label (strictly_split "." domain))
    then Some (map lowercase domain)
    else option_map list_ascii_of_string
           (unicode_ToASCII (string_of_list_ascii domain)) in
  match result with
  | Some [] => None
  | _ => result
  end.

(** The host parser; [input] is not empty when [isOpaque] is [false]. *)
Definition host_parse (isOpaque : bool) (input : list ascii) : option host :=
  match input with
  | "[" :: inner =>
      match rev inner with
      | "]" :: address => option_map IPv6 (ipv6_parse (rev address))
      | _ => None
      end
  | _ =>
      if isOpaque then opaque_host_parse input
      else
        match domain_to_ASCII (percent_decode input) with
        | None => None
        | Some asciiDomain =>
            if existsb is_forbidden_domain_code_point asciiDomain then None
            else if ends_in_a_number asciiDomain
            then option_map IPv4 (ipv4_parse asciiDomain)
            else Some (Domain (string_of_list_ascii asciiDomain))
        end
  end.

(** *** The states of the basic URL parser *)

(** The code points that end the authority: [/], [?], [#], and [\] in a
    special URL.  The end of the input is the [[]] case of each state. *)
Definition ends_authority (special : bool) (c : ascii) : bool :=
  Ascii.eqb c "/" || Ascii.eqb c "?" || Ascii.eqb c "#"
  || (special && Ascii.eqb c "\").

Definition with_host (scheme : string) (h : host) (p : option N) : option url :=
  Some {| scheme := scheme; host_of := Some h; port := p |}.

(** Port state, at a code point that is not a digit and ends the port. *)
Definition port_done (scheme : string) (h : host) (buffer : list ascii) : option url :=
  match buffer with
  | [] => with_host scheme h None
  | _ =>
      let p := number_in_radix 10 buffer in
      if 65535 <? p then None
      else match default_port scheme with
           | Some d => with_host scheme h (if d =? p then None else Some p)
           | None => with_host scheme h (Some p)
           end
  end.

Fixpoint port_state (scheme : string) (h : host) (input buffer : list ascii)
    : option url :=
  match input with
  | [] => port_done scheme h buffer
  | c :: rest =>
      if is_digit c then port_state scheme h rest (buffer ++ [c])%list
      else if ends_authority (is_special scheme) c then port_done scheme h buffer
      else None
  end.

(** Host state, at the end of the host. *)
Definition host_done (scheme : string) (buffer : list ascii) : option url :=
  if is_special scheme && is_empty buffer then None
  else match host_parse (negb (is_special scheme)) buffer with
       | Some h => with_host scheme h None
       | None => None
       end.

Fixpoint host_state (scheme : string) (input buffer : list ascii)
    (insideBrackets : bool) : option url :=
  match input with
  | [] => host_done scheme buffer
  | c :: rest =>
      if Ascii.eqb c ":" && negb insideBrackets then
        if is_empty buffer then None
        else match host_parse (negb (is_special scheme)) buffer with
             | Some h => port_state scheme h rest []
             | None => None
             end
      else if ends_authority (is_special scheme) c then host_done scheme buffer
      else
        host_state scheme rest (buffer ++ [c])%list
          (if Ascii.eqb c "[" then true
           else if Ascii.eqb c "]" then false
           else insideBrackets)
  end.

(** Authority state: at each [@] the buffer (the credentials) is
    consumed; at the end of the authority the parser goes back to the
    start of the buffer and enters the host state. *)
Fixpoint authority_state (scheme : string) (input buffer : list ascii)
    (atSignSeen : bool) : option url :=
  match input with
  | [] =>
      if atSignSeen && is_empty buffer then None
      else host_state scheme buffer [] false
  | c :: rest =>
      if Ascii.eqb c "@" then authority_state scheme rest [] true
      else if ends_authority (is_special scheme) c then
        if atSignSeen && is_empty buffer then None
        else host_state scheme (buffer ++ input)%list [] false
      else authority_state scheme rest (buffer ++ [c])%list atSignSeen
  end.

Fixpoint special_authority_ignore_slashes_state (scheme : string)
    (input : list ascii) : option url :=
  match input with
  | c :: rest =>
      if Ascii.eqb c "/" || Ascii.eqb c "\"
      then special_authority_ignore_slashes_state scheme rest
      else authority_state scheme input [] false
  | [] => authority_state scheme [] [] false
  end.

Definition special_authority_slashes_state (scheme : string)
    (input : list ascii) : option url :=
  match input with
  | "/" :: "/" :: rest => special_authority_ignore_slashes_state scheme rest
  | _ => special_authority_ignore_slashes_state scheme input
  end.

(** A URL that never reaches the authority state has a null host. *)
Definition without_host (scheme : string) : option url :=
  Some {| scheme := scheme; host_of := None; port := None |}.

Definition path_or_authority_state (scheme : string) (input : list ascii)
    : option url :=
  match input with
  | "/" :: rest => authority_state scheme rest [] false
  | _ => without_host scheme
  end.

Definition is_windows_drive_letter (buffer : list ascii) : bool :=
  match buffer with
  | [letter; colon] => is_alpha letter && (Ascii.eqb colon ":" || Ascii.eqb colon "|")
  | _ => false
  end.

Definition file_host_done (buffer : list ascii) : option url :=
  if is_windows_drive_letter buffer || is_empty buffer
  then with_host "file" EmptyHost None
  else match host_parse false buffer with
       | None => None
       | Some (Domain "localhost") => with_host "file" EmptyHost None
       | Some h => with_host "file" h None
       end.

Fixpoint file_host_state (input buffer : list ascii) : option url :=
  match input with
  | [] => file_host_done buffer
  | c :: rest =>
      if ends_authority true c then file_host_done buffer
      else file_host_state rest (buffer ++ [c])%list
  end.

Definition file_slash_state (input : list ascii) : option url :=
  match input with
  | c :: rest =>
      if Ascii.eqb c "/" || Ascii.eqb c "\" then file_host_state rest []
      else with_host "file" EmptyHost None
  | [] => with_host "file" EmptyHost None
  end.

Definition file_state (input : list ascii) : option url :=
  match input with
  | c :: rest =>
      if Ascii.eqb c "/" || Ascii.eqb c "\" then file_slash_state rest
      else with_host "file" EmptyHost None
  | [] => with_host "file" EmptyHost None
  end.

(** Scheme state, just after the [:] that ends the scheme. *)
Definition scheme_done (scheme : string) (remaining : list ascii) : option url :=
  if String.eqb scheme "file" then file_state remaining
  else if is_special scheme then special_authority_slashes_state scheme remaining
  else match remaining with
       | "/" :: rest => path_or_authority_state scheme rest
       | _ => without_host scheme
       end.

(** With no base URL the no-scheme state returns failure, so does every
    input whose scheme is not ended by a [:]. *)
Fixpoint scheme_state (input buffer : list ascii) : option url :=
  match input with
  | [] => None
  | c :: rest =>
      if is_alphanumeric c || Ascii.eqb c "+" || Ascii.eqb c "-" || Ascii.eqb c "."
      then scheme_state rest (buffer ++ [lowercase c])%list
      else if Ascii.eqb c ":" then scheme_done (string_of_list_ascii buffer) rest
      else None
  end.

Definition scheme_start_state (input : list ascii) : option url :=
  match input with
  | c :: rest => if is_alpha c then scheme_state rest [lowercase c] else None
  | [] => None
  end.

Definition basic_URL_parse (input : string) : option url :=
  scheme_start_state
    (filter (fun c => negb (is_tab_or_newline c))
       (strip (list_ascii_of_string input))).

End Parser.

End URL.

(** ** The request, the response and the vision client *)

(** The second argument of [analyzeImage]. *)
Record analyze_options : Type := {
  visualFeatures : list string;
  details : option (list string)
}.

(** The four methods of the vision client the program calls, with their
    arguments in source order. *)
Inductive remote_call : Type :=
| analyzeImage (url : value) (options : analyze_options)
| detectObjects (url : value)
| describeImage (url : value)
| recognizePrintedText (flag : bool) (url : value).

(** How the promise a call returns settles. *)
Inductive settlement : Type :=
| Resolved (result : value)
| Rejected (reason : value)
| Unsettled.

Definition client : Type := remote_call -> settlement.

(** What has been written to the response: by [res.json], the value it
    was handed (Express sends its [JSON.stringify]); or the error page of
    Express's final handler. *)
Inductive payload : Type :=
| JsonBody (body : value)
| ErrorPage (error : value).

(** The state one request is processed in: the parsed request body
    ([req.body], as [express.json()] left it), the response object, the
    calls made to the vision client, the lines written by
    [console.error], and the rejections no handler took. *)
Record world : Type := {
  req_body : value;
  statusCode : Z;
  sent : option payload;
  calls : list remote_call;
  console : list (list value);
  unhandled : list value
}.

Definition set_statusCode (code : Z) (w : world) : world :=
  {| req_body := req_body w; statusCode := code; sent := sent w;
     calls := calls w; console := console w; unhandled := unhandled w |}.

Definition set_sent (p : payload) (w : world) : world :=
  {| req_body := req_body w; statusCode := statusCode w; sent := Some p;
     calls := calls w; console := console w; unhandled := unhandled w |}.

Definition add_call (c : remote_call) (w : world) : world :=
  {| req_body := req_body w; statusCode := statusCode w; sent := sent w;
     calls := (calls w ++ [c])%list; console := console w; unhandled := unhandled w |}.

Definition add_console (line : list value) (w : world) : world :=
  {| req_body := req_body w; statusCode := statusCode w; sent := sent w;
     calls := calls w; console := (console w ++ [line])%list; unhandled := unhandled w |}.

Definition add_unhandled (e : value) (w : world) : world :=
  {| req_body := req_body w; statusCode := statusCode w; sent := sent w;
     calls := calls w; console := console w; unhandled := (unhandled w ++ [e])%list |}.

(** A request as it reaches the routes: nothing sent, status 200. *)
Definition incoming (body : value) : world :=
  {| req_body := body; statusCode := 200; sent := None;
     calls := []; console := []; unhandled := [] |}.

(** ** The monad of handlers *)

Definition M (A : Type) : Type := world -> completion A * world.

Definition ret {A} (a : A) : M A := fun w => (Normal a, w).

Definition bind {A B} (m : M A) (k : A -> M B) : M B :=
  fun w =>
    match m w with
    | (Normal a, w') => k a w'
    | (Throw e, w') => (Throw e, w')
    | (Pending, w') => (Pending, w')
    end.

Declare Scope js_scope.
Delimit Scope js_scope with js.
Notation "x <- m ;; k" := (bind m (fun x => k))
  (at level 61, m at next level, right associativity) : js_scope.
Notation "m ;; k" := (bind m (fun _ => k))
  (at level 61, right associativity) : js_scope.
Local Open Scope js_scope.

(** An expression that does not touch the state. *)
Definition eval {A} (c : completion A) : M A := fun w => (c, w).

(** [try { body } catch (error) { handler }] *)
Definition try_catch {A} (body : M A) (handler : value -> M A) : M A :=
  fun w =>
    match body w with
    | (Throw e, w') => handler e w'
    | r => r
    end.

(** Calling an [async] function: it returns a promise and never throws;
    what its body throws rejects that promise, and [unhandled] records
    the rejection: no statement of app.js takes it.  (Express 4 drops the
    promise a handler returns; a later Express hands such a rejection to
    its final handler.) *)
Definition async (body : M unit) : M unit :=
  fun w =>
    match body w with
    | (Throw e, w') => (Normal tt, add_unhandled e w')
    | (_, w') => (Normal tt, w')
    end.

Definition req_dot_body : M value := fun w => (Normal (req_body w), w).

(** [res.status(code)] *)
Definition res_status (code : Z) : M unit :=
  fun w => (Normal tt, set_statusCode code w).

(** [res.json(body)] *)
Definition res_json (body : value) : M unit :=
  fun w =>
    match sent w with
    | None => (Normal tt, set_sent (JsonBody body) w)
    | Some _ =>
        (Throw (VError "Error" "Cannot set headers after they are sent to the client"), w)
    end.

(** [console.error(...line)] *)
Definition console_error (line : list value) : M unit :=
  fun w => (Normal tt, add_console line w).

(** ** app.js *)

Section App.
Context {engine : Engine}.

(** [visionProcessor], the client built once when the module loads, and
    [process.env.API_BASE_URL] ([None] when the variable is not set). *)
Variable visionProcessor : client.
Variable API_BASE_URL : option string.

(** [await visionProcessor.method(...)] *)
Definition await (call : remote_call) : M value :=
  fun w =>
    match visionProcessor call with
    | Resolved result => (Normal result, add_call call w)
    | Rejected reason => (Throw reason, add_call call w)
    | Unsettled => (Pending, add_call call w)
    end.

(** [new URL(input)] *)
Definition new_URL (input : value) : completion URL.url :=
  match ToString input with
  | Normal s =>
      match URL.basic_URL_parse s with
      | Some u => Normal u
      | None => Throw (TypeError "Invalid URL")
      end
  | Throw e => Throw e
  | Pending => Pending
  end.

Definition error_body (message : value) : value := VObject [("error", message)].

(** The middleware.  [next] is the rest of the route's stack; it is called
    inside the [try] block, as in the source. *)
Definition checkImageUrl (next : M unit) : M unit :=
  body <- req_dot_body ;;
  imageUrl <- eval (Destructure body "imageUrl") ;;
  if negb (ToBoolean imageUrl) then
    res_status 400 ;; res_json (error_body (VString "Image URL is required"))
  else
    try_catch
      (eval (new_URL imageUrl) ;; next)
      (fun error =>
         res_status 400 ;; res_json (error_body (VString "Invalid URL format"))).

Definition processError (err : value) : M unit :=
  console_error [VString "Error:"; err] ;;
  res_status 500 ;;
  message <- eval (Get err "message") ;;
  res_json (error_body (js_or message (VString "An error occurred during image analysis"))).

(** [req.body.imageUrl] *)
Definition req_body_imageUrl : M value :=
  body <- req_dot_body ;; eval (Get body "imageUrl").

Definition analysisFeatures : list string :=
  ["ImageType"; "Faces"; "Adult"; "Categories"; "Color"; "Tags";
   "Description"; "Objects"; "Brands"].

Definition specialFeatures : list string := ["Landmarks"].

Definition analyze_handler : M unit :=
  async (try_catch
    (imageUrl <- req_body_imageUrl ;;
     analysis <- await (analyzeImage imageUrl
                   {| visualFeatures := analysisFeatures;
                      details := Some specialFeatures |}) ;;
     res_json analysis)
    processError).

Definition tags_handler : M unit :=
  async (try_catch
    (imageUrl <- req_body_imageUrl ;;
     analysis <- await (analyzeImage imageUrl
                   {| visualFeatures := ["Tags"]; details := None |}) ;;
     tags <- eval (Get analysis "tags") ;;
     res_json tags)
    processError).

Definition objects_handler : M unit :=
  async (try_catch
    (imageUrl <- req_body_imageUrl ;;
     analysis <- await (detectObjects imageUrl) ;;
     res_json analysis)
    processError).

Definition describe_handler : M unit :=
  async (try_catch
    (imageUrl <- req_body_imageUrl ;;
     analysis <- await (describeImage imageUrl) ;;
     res_json analysis)
    processError).

Definition text_handler : M unit :=
  async (try_catch
    (imageUrl <- req_body_imageUrl ;;
     analysis <- await (recognizePrintedText false imageUrl) ;;
     res_json analysis)
    processError).

Definition faces_handler : M unit :=
  async (try_catch
    (imageUrl <- req_body_imageUrl ;;
     analysis <- await (analyzeImage imageUrl
                   {| visualFeatures := ["Faces"]; details := None |}) ;;
     faces <- eval (Get analysis "faces") ;;
     res_json faces)
    processError).

Definition colors_handler : M unit :=
  async (try_catch
    (imageUrl <- req_body_imageUrl ;;
     analysis <- await (analyzeImage imageUrl
                   {| visualFeatures := ["Color"]; details := None |}) ;;
     color <- eval (Get analysis "color") ;;
     res_json color)
    processError).

(** [process.env.NAME || fallback]: an environment variable is a string or
    is undefined, and the empty string is falsy. *)
Definition env_or (variable : option string) (fallback : string) : string :=
  match variable with
  | Some s => if String.eqb s "" then fallback else s
  | None => fallback
  end.

Definition root_handler : M unit :=
  res_json (VObject
    [("message", VString "Welcome to Azure AI Image Analysis API");
     ("documentation",
      VString (env_or API_BASE_URL "http://157.230.209.216:5000/" ++ "/api-docs"));
     ("note", VString "All endpoints need to be tested using Postman.");
     ("endpoints", VObject
        [("analyze", VString "/api/vision/analyze");
         ("tags", VString "/api/vision/tags");
         ("objects", VString "/api/vision/objects");
         ("describe", VString "/api/vision/describe");
         ("text", VString "/api/vision/text");
         ("faces", VString "/api/vision/faces");
         ("colors", VString "/api/vision/colors")])]).

(** The routes, in the order the source registers them.  (The
    documentation pages under [/api-docs] are not part of this model.) *)
Inductive method : Type := GET | POST.

Definition method_eqb (a b : method) : bool :=
  match a, b with GET, GET | POST, POST => true | _, _ => false end.

Definition routes : list (method * string * M unit) :=
  [(POST, "/api/vision/analyze", checkImageUrl analyze_handler);
   (POST, "/api/vision/tags", checkImageUrl tags_handler);
   (POST, "/api/vision/objects", checkImageUrl objects_handler);
   (POST, "/api/vision/describe", checkImageUrl describe_handler);
   (POST, "/api/vision/text", checkImageUrl text_handler);
   (POST, "/api/vision/faces", checkImageUrl faces_handler);
   (POST, "/api/vision/colors", checkImageUrl colors_handler);
   (GET, "/", root_handler)].

Fixpoint find_route (m : method) (path : string)
    (table : list (method * string * M unit)) : option (M unit) :=
  match table with
  | [] => None
  | (m', path', stack) :: rest =>
      if method_eqb m m' && String.eqb path path' then Some stack
      else find_route m path rest
  end.

(** Express around a route: what the stack throws synchronously goes to
    the final handler, which answers 500 with an error page unless the
    response has been sent. *)
Definition final_handler (r : completion unit * world) : world :=
  match r with
  | (Throw e, w) =>
      match sent w with
      | None => set_sent (ErrorPage e) (set_statusCode 500 w)
      | Some _ => w
      end
  | (_, w) => w
  end.

(** A request with the given method, path and parsed body, on a path
    spelled as it is registered.  [None]: no route is registered under
    that spelling; what Express then does (its matching is lenient about
    case and a trailing slash, and it answers 404 at the end) is not
    part of this model. *)
Definition app (m : method) (path : string) (body : value) : option world :=
  match find_route m path routes with
  | Some stack => Some (final_handler (stack (incoming body)))
  | None => None
  end.

(** The seven analysis endpoints. *)
Inductive endpoint : Type :=
| analyze | tags | objects | describe | text | faces | colors.

Definition all_endpoints : list endpoint :=
  [analyze; tags; objects; describe; text; faces; colors].

Definition name_of (ep : endpoint) : string :=
  match ep with
  | analyze => "analyze" | tags => "tags" | objects => "objects"
  | describe => "describe" | text => "text" | faces => "faces"
  | colors => "colors"
  end.

Definition path_of (ep : endpoint) : string := "/api/vision/" ++ name_of ep.

Definition handler_of (ep : endpoint) : M unit :=
  match ep with
  | analyze => analyze_handler | tags => tags_handler
  | objects => objects_handler | describe => describe_handler
  | text => text_handler | faces => faces_handler | colors => colors_handler
  end.

(** The call to the vision client each handler awaits ([post_calls] below
    proves it is the only one). *)
Definition call_of (ep : endpoint) (imageUrl : value) : remote_call :=
  match ep with
  | analyze => analyzeImage imageUrl
                 {| visualFeatures := analysisFeatures; details := Some specialFeatures |}
  | tags => analyzeImage imageUrl {| visualFeatures := ["Tags"]; details := None |}
  | objects => detectObjects imageUrl
  | describe => describeImage imageUrl
  | text => recognizePrintedText false imageUrl
  | faces => analyzeImage imageUrl {| visualFeatures := ["Faces"]; details := None |}
  | colors => analyzeImage imageUrl {| visualFeatures := ["Color"]; details := None |}
  end.

(** What each handler passes to [res.json], given what the call resolved
    with. *)
Definition projection_of (ep : endpoint) (analysis : value) : completion value :=
  match ep with
  | tags => Get analysis "tags"
  | faces => Get analysis "faces"
  | colors => Get analysis "color"
  | analyze | objects | describe | text => Normal analysis
  end.

(** [POST path_of ep] with the given parsed body; every [path_of ep] has
    a route ([post_route] below). *)
Definition post (ep : endpoint) (body : value) : world :=
  match app POST (path_of ep) body with
  | Some w => w
  | None => incoming body
  end.

(** The two tests of [checkImageUrl] that let a request through. *)
Definition passes_validation (imageUrl : value) : bool :=
  ToBoolean imageUrl
  && match new_URL imageUrl with Normal _ => true | _ => false end.

End App.

(** What the client of the service sees. *)
Definition response (w : world) : Z * option payload := (statusCode w, sent w).

(** A URL includes a host when its host is neither null nor empty. *)
Definition has_host (u : URL.url) : bool :=
  match URL.host_of u with
  | Some URL.EmptyHost | None => false
  | Some _ => true
  end.

(** Validity in the words of the specification, to be compared with what
    [checkImageUrl] tests: "a syntactically valid absolute URL", "per
    standard URL-parsing rules", which "must include scheme and host". *)
Definition is_valid_absolute_URL {engine : Engine} (s : string) : bool :=
  match URL.basic_URL_parse s with
  | Some u => negb (String.eqb (URL.scheme u) "") && has_host u
  | None => false
  end.

(** An engine to run the model on examples that hold no number and no
    host outside ASCII: it has no number formatting and no Unicode tables
    to speak of. *)
Definition plain_engine : Engine :=
  {| Number_toString := fun _ => "NaN"; unicode_ToASCII := fun _ => None |}.

(** A vision client for examples: it resolves every call with [result]. *)
Definition resolving (result : value) : client := fun _ => Resolved result.

(** A vision client for examples: it rejects every call with [reason]. *)
Definition rejecting (reason : value) : client := fun _ => Rejected reason.

(** ** The documentation settings *)

(** [v[i]] on an array; [undefined] out of range. *)
Definition Index (v : value) (i : nat) : completion value :=
  match v with
  | VUndefined | VNull =>
      Throw (TypeError "Cannot read properties of undefined")
  | VArray items => Normal (nth i items VUndefined)
  | _ => Normal VUndefined
  end.

(** [apiDocConfig], the object handed to [swaggerJsdoc]. *)
Definition apiDocConfig (API_BASE_URL : option string) : value :=
  VObject
    [("definition", VObject
        [("openapi", VString "3.0.0");
         ("info", VObject
            [("title", VString "Azure AI Image Analysis");
             ("version", VString "1.0.0");
             ("description", VString "Comprehensive API for Computer Vision Analysis")]);
         ("servers", VArray
            [VObject
               [("url", VString (env_or API_BASE_URL "http://157.230.209.216:5000"));
                ("description", VString "Development server")]])]);
     ("apis", VArray [VString "./app.js"])].

(** [config.definition.servers[0].url] *)
Definition server_url (config : value) : completion value :=
  match Get config "definition" with
  | Normal definition =>
      match Get definition "servers" with
      | Normal servers =>
          match Index servers 0 with
          | Normal server => Get server "url"
          | Throw e => Throw e
          | Pending => Pending
          end
      | Throw e => Throw e
      | Pending => Pending
      end
  | Throw e => Throw e
  | Pending => Pending
  end.

(** ** Module start-up *)

Module process.

(** [process.env]: the variables app.js reads, [None] for one that is
    not set. *)
Record env : Type := {
  AZURE_API_KEY : option string;
  AZURE_ENDPOINT : option string;
  API_BASE_URL : option string;
  PORT : option string
}.

End process.

(** Modelled from the spec: the constructor of the SDK's credential class,
    called at line 12, is not under src/.  By section 6.3 of the
    specification the access credential is consumed at process start and
    validated for presence, and for nothing else: the constructor throws
    on a key that is not set (or is empty, which a presence test written
    as a JavaScript condition takes for absent) and keeps any other
    key. *)
Definition CognitiveServicesCredentials (subscriptionKey : option string)
    : completion string :=
  match subscriptionKey with
  | Some key =>
      if String.eqb key ""
      then Throw (VError "Error"
                    "subscriptionKey cannot be null or undefined and must be of type string.")
      else Normal key
  | None =>
      Throw (VError "Error"
               "subscriptionKey cannot be null or undefined and must be of type string.")
  end.

(** Modelled from the spec: the constructor of the SDK's client class,
    called at line 11, is not under src/.  By section 6.3 of the
    specification the service endpoint address is consumed at process
    start and validated for presence, and for nothing else: the
    constructor throws on an endpoint that is not set.  [service] is the
    remote service as a client built with a credential and an endpoint
    sees it. *)
Definition ComputerVisionClient (service : string -> string -> client)
    (credentials : string) (endpoint : option string) : completion client :=
  match endpoint with
  | Some address => Normal (service credentials address)
  | None => Throw (VError "Error" "'endpoint' cannot be null.")
  end.

Section Process.
Context {engine : Engine}.
Variable service : string -> string -> client.
Variable env : process.env.

(** Lines 11 to 14, evaluated when the module loads: the arguments of
    [new ComputerVisionClient] in order, then the constructor. *)
Definition module_load : completion client :=
  match CognitiveServicesCredentials (process.AZURE_API_KEY env) with
  | Normal credentials =>
      ComputerVisionClient service credentials (process.AZURE_ENDPOINT env)
  | Throw e => Throw e
  | Pending => Pending
  end.

(** The program as a whole, on one request.  [Throw e]: the module threw
    [e] while loading, before any route was registered and before
    [app.listen]; the process ends and no request is answered. *)
Definition server (m : method) (path : string) (body : value)
    : completion (option world) :=
  match module_load with
  | Normal visionProcessor =>
      Normal (app visionProcessor (process.API_BASE_URL env) m path body)
  | Throw e => Throw e
  | Pending => Pending
  end.

End Process.


Definition unconfigured : process.env :=
  {| process.AZURE_API_KEY := None; process.AZURE_ENDPOINT := None;
     process.API_BASE_URL := None; process.PORT := None |}.

(** * Properties *)

(** ** Values *)

Lemma Get_Destructure (body : value) (k : string) (v : value) :
  Get body k = Normal v -> Destructure body k = Normal v.
Proof. destruct body; simpl; intro H; try exact H; discriminate H. Qed.

Lemma sequence_settles {A} (l : list (completion A)) :
  Forall (fun c => c <> Pending) l -> sequence l <> Pending.
Proof.
  induction 1 as [|c l Hc _ IH]; simpl; [discriminate|].
  destruct c as [a|e|]; [|discriminate|congruence].
  destruct (sequence l); [discriminate|discriminate|congruence].
Qed.

(** Converting a value to a string ends: with a string or with a throw. *)
Lemma ToString_settles {engine : Engine} : forall v : value, ToString v <> Pending.
Proof.
  fix IH 1. intros [| |b|n|s|items|fields|name message]; simpl; try discriminate.
  - destruct b; discriminate.
  - assert (H : sequence (map (fun x => if is_nullish x then Normal ""
                                         else ToString x) items) <> Pending).
    { apply sequence_settles.
      induction items as [|x items IHitems]; simpl; constructor; [|exact IHitems].
      destruct (is_nullish x); [discriminate|apply IH]. }
    destruct (sequence _); [discriminate|discriminate|congruence].
  - destruct (lookup "toString" fields); discriminate.
Qed.

Lemma new_URL_settles {engine : Engine} (v : value) : new_URL v <> Pending.
Proof.
  unfold new_URL. pose proof (ToString_settles v) as H.
  destruct (ToString v) as [s|e|]; [|discriminate|congruence].
  destruct (URL.basic_URL_parse s); discriminate.
Qed.

(** ** The URL parser *)

Section URLFacts.
Context {engine : Engine}.

(** The examples of the specification, and the kinds of URL that tell
    the parser from a check for a scheme and a host. *)
Example parse_web_address :
  URL.basic_URL_parse "https://Example.com:443/cat.png?size=2#top"
  = Some {| URL.scheme := "https";
            URL.host_of := Some (URL.Domain "example.com");
            URL.port := None |}.
Proof. reflexivity. Qed.

Example parse_not_a_url : URL.basic_URL_parse "not a url" = None.
Proof. reflexivity. Qed.

Example parse_bad : URL.basic_URL_parse "://bad" = None.
Proof. reflexivity. Qed.

Example parse_http_without_host : URL.basic_URL_parse "http://" = None.
Proof. reflexivity. Qed.

Example parse_mailto :
  URL.basic_URL_parse "mailto:x"
  = Some {| URL.scheme := "mailto"; URL.host_of := None; URL.port := None |}.
Proof. reflexivity. Qed.

Example parse_file :
  URL.basic_URL_parse "file:///tmp/cat.png"
  = Some {| URL.scheme := "file"; URL.host_of := Some URL.EmptyHost;
            URL.port := None |}.
Proof. reflexivity. Qed.

Example parse_ipv4 :
  URL.basic_URL_parse "http://0x7f.1:8080/"
  = Some {| URL.scheme := "http"; URL.host_of := Some (URL.IPv4 2130706433);
            URL.port := Some 8080%N |}.
Proof. reflexivity. Qed.

Example parse_ipv6 :
  URL.basic_URL_parse "http://[1:2::ffff:1.2.3.4]/"
  = Some {| URL.scheme := "http";
            URL.host_of := Some (URL.IPv6 [1; 2; 0; 0; 0; 65535; 258; 772]%N);
            URL.port := None |}.
Proof. reflexivity. Qed.

Example parse_port_out_of_range : URL.basic_URL_parse "http://a:65536/" = None.
Proof. reflexivity. Qed.

(** Without a [:] there is no scheme, and no URL. *)
Lemma scheme_state_needs_colon (input buffer : list ascii) :
  ~ In ":"%char input -> URL.scheme_state input buffer = None.
Proof.
  revert buffer. induction input as [|c rest IH]; intros buffer Hno; simpl.
  - reflexivity.
  - destruct (_ || _).
    + apply IH. intro Hin. apply Hno. right. exact Hin.
    + destruct (Ascii.eqb c ":") eqn:E; [|reflexivity].
      apply Ascii.eqb_eq in E. exfalso. apply Hno. left. exact E.
Qed.

Lemma In_strip_leading (c : ascii) (l : list ascii) :
  In c (URL.strip_leading l) -> In c l.
Proof.
  induction l as [|x l IH]; simpl; [tauto|].
  destruct (URL.is_c0_control_or_space x); [right; apply IH; assumption|tauto].
Qed.

Lemma In_strip (c : ascii) (l : list ascii) : In c (URL.strip l) -> In c l.
Proof.
  unfold URL.strip. intro H.
  apply In_strip_leading, in_rev, In_strip_leading, in_rev. exact H.
Qed.

Lemma URL_needs_a_scheme (s : string) :
  ~ In ":"%char (list_ascii_of_string s) -> URL.basic_URL_parse s = None.
Proof.
  intro Hno. unfold URL.basic_URL_parse, URL.scheme_start_state.
  destruct (filter _ _) as [|c rest] eqn:E; [reflexivity|].
  destruct (URL.is_alpha c); [|reflexivity].
  apply scheme_state_needs_colon. intro Hin. apply Hno.
  apply In_strip.
  assert (H : In ":"%char (c :: rest)) by (right; exact Hin).
  rewrite <- E in H. apply filter_In in H. tauto.
Qed.

(** In a URL of a special scheme other than [file] the host is never
    missing: for [http], [https], [ws], [wss] and [ftp] the parser does
    require a scheme and a host. *)
Lemma host_parse_not_empty (input : list ascii) (h : URL.host) :
  URL.host_parse false input = Some h -> h <> URL.EmptyHost.
Proof.
  unfold URL.host_parse. intro H.
  assert (Hdomain :
    match URL.domain_to_ASCII (URL.percent_decode input) with
    | Some asciiDomain =>
        if existsb URL.is_forbidden_domain_code_point asciiDomain then None
        else if URL.ends_in_a_number asciiDomain
             then option_map URL.IPv4 (URL.ipv4_parse asciiDomain)
             else Some (URL.Domain (string_of_list_ascii asciiDomain))
    | None => None
    end = Some h -> h <> URL.EmptyHost).
  { destruct (URL.domain_to_ASCII _) as [d|]; [|discriminate].
    destruct (existsb _ d); [discriminate|].
    destruct (URL.ends_in_a_number d).
    - destruct (URL.ipv4_parse d); simpl; intro E; inversion E; discriminate.
    - intro E; inversion E; discriminate. }
  destruct input as [|c inner]; [exact (Hdomain H)|].
  destruct (Ascii.eqb c "[") eqn:Ec.
  - apply Ascii.eqb_eq in Ec. subst c.
    destruct (rev inner) as [|c' address]; [discriminate|].
    destruct (Ascii.eqb c' "]") eqn:Ec'.
    + apply Ascii.eqb_eq in Ec'. subst c'.
      destruct (URL.ipv6_parse _); simpl in H; inversion H; discriminate.
    + destruct c' as [[] [] [] [] [] [] [] []]; try discriminate H.
      discriminate Ec'.
  - destruct c as [[] [] [] [] [] [] [] []]; try exact (Hdomain H).
    discriminate Ec.
Qed.

Lemma port_state_host (scheme : string) (h : URL.host) (input buffer : list ascii)
    (u : URL.url) :
  URL.port_state scheme h input buffer = Some u ->
  URL.scheme u = scheme /\ URL.host_of u = Some h.
Proof.
  assert (Hdone : forall buffer, URL.port_done scheme h buffer = Some u ->
                    URL.scheme u = scheme /\ URL.host_of u = Some h).
  { intros b. unfold URL.port_done, URL.with_host.
    destruct b; [intro E; inversion E; split; reflexivity|].
    destruct (_ <? _)%N; [discriminate|].
    destruct (URL.default_port scheme); intro E; inversion E; split; reflexivity. }
  revert buffer. induction input as [|c rest IH]; intros buffer; simpl.
  - apply Hdone.
  - destruct (URL.is_digit c); [apply IH|].
    destruct (URL.ends_authority _ c); [apply Hdone|discriminate].
Qed.

Lemma has_host_not_empty (u : URL.url) (h : URL.host) :
  URL.host_of u = Some h -> h <> URL.EmptyHost -> has_host u = true.
Proof. unfold has_host. intros -> Hh. destruct h; congruence. Qed.

Lemma host_done_host (scheme : string) (buffer : list ascii) (u : URL.url) :
  URL.host_done scheme buffer = Some u ->
  URL.scheme u = scheme /\ (URL.is_special scheme = true -> has_host u = true).
Proof.
  unfold URL.host_done.
  destruct (_ && _); [discriminate|].
  destruct (URL.host_parse _ buffer) as [h|] eqn:Eh; [|discriminate].
  intro E; inversion E; subst u. split; [reflexivity|].
  intro Hspecial. rewrite Hspecial in Eh.
  apply (has_host_not_empty _ h); [reflexivity|].
  apply (host_parse_not_empty buffer), Eh.
Qed.

Lemma host_state_host (scheme : string) (input buffer : list ascii)
    (insideBrackets : bool) (u : URL.url) :
  URL.host_state scheme input buffer insideBrackets = Some u ->
  URL.scheme u = scheme /\ (URL.is_special scheme = true -> has_host u = true).
Proof.
  revert buffer insideBrackets.
  induction input as [|c rest IH]; intros buffer insideBrackets; simpl.
  - apply host_done_host.
  - destruct (_ && _).
    + destruct (URL.is_empty buffer); [discriminate|].
      destruct (URL.host_parse _ buffer) as [h|] eqn:Eh; [|discriminate].
      intro Hport. apply port_state_host in Hport as [Hscheme Hhost].
      split; [exact Hscheme|]. intro Hspecial. rewrite Hspecial in Eh.
      apply (has_host_not_empty _ h Hhost). apply (host_parse_not_empty buffer), Eh.
    + destruct (URL.ends_authority _ c); [apply host_done_host|apply IH].
Qed.

Lemma authority_state_host (scheme : string) (input buffer : list ascii)
    (atSignSeen : bool) (u : URL.url) :
  URL.authority_state scheme input buffer atSignSeen = Some u ->
  URL.scheme u = scheme /\ (URL.is_special scheme = true -> has_host u = true).
Proof.
  revert buffer atSignSeen.
  induction input as [|c rest IH]; intros buffer atSignSeen; simpl.
  - destruct (_ && _); [discriminate|]. apply host_state_host.
  - destruct (Ascii.eqb c "@"); [apply IH|].
    destruct (URL.ends_authority _ c); [|apply IH].
    destruct (_ && _); [discriminate|]. apply host_state_host.
Qed.

Lemma ignore_slashes_host (scheme : string) (input : list ascii) (u : URL.url) :
  URL.special_authority_ignore_slashes_state scheme input = Some u ->
  URL.scheme u = scheme /\ (URL.is_special scheme = true -> has_host u = true).
Proof.
  induction input as [|c rest IH];
    cbn [URL.special_authority_ignore_slashes_state].
  - apply authority_state_host.
  - destruct (_ || _); [exact IH|]. apply authority_state_host.
Qed.

(** The matches on literal code points, as case distinctions. *)
Lemma slashes_state_cases (scheme : string) (input : list ascii) :
  exists input', URL.special_authority_slashes_state scheme input
                 = URL.special_authority_ignore_slashes_state scheme input'.
Proof.
  destruct input as [|c1 [|c2 rest]]; try (eexists; reflexivity).
  - destruct c1 as [[] [] [] [] [] [] [] []]; eexists; reflexivity.
  - destruct c1 as [[] [] [] [] [] [] [] []]; try (eexists; reflexivity).
    destruct c2 as [[] [] [] [] [] [] [] []]; eexists; reflexivity.
Qed.

Lemma path_or_authority_cases (scheme : string) (input : list ascii) :
  URL.path_or_authority_state scheme input = URL.without_host scheme
  \/ exists input', URL.path_or_authority_state scheme input
                    = URL.authority_state scheme input' [] false.
Proof.
  destruct input as [|c rest]; [left; reflexivity|].
  destruct c as [[] [] [] [] [] [] [] []];
    first [left; reflexivity | right; eexists; reflexivity].
Qed.

Lemma not_special_cases (scheme : string) (remaining : list ascii) :
  URL.is_special scheme = false ->
  String.eqb scheme "file" = false ->
  URL.scheme_done scheme remaining = URL.without_host scheme
  \/ exists input', URL.scheme_done scheme remaining
                    = URL.authority_state scheme input' [] false.
Proof.
  intros Hspecial Hfile. unfold URL.scheme_done. rewrite Hfile, Hspecial.
  destruct remaining as [|c rest]; [left; reflexivity|].
  destruct c as [[] [] [] [] [] [] [] []];
    first [left; reflexivity | apply path_or_authority_cases].
Qed.

Lemma file_host_done_scheme (buffer : list ascii) (u : URL.url) :
  URL.file_host_done buffer = Some u -> URL.scheme u = "file".
Proof.
  unfold URL.file_host_done, URL.with_host.
  destruct (_ || _); [intro E; inversion E; reflexivity|].
  destruct (URL.host_parse false buffer) as [h|]; [|discriminate].
  destruct h as [name| | | |]; try (intro E; inversion E; reflexivity).
  repeat match goal with
         | |- context [match ?x with _ => _ end] => destruct x
         end; intro E; inversion E; reflexivity.
Qed.

Lemma file_state_scheme (input : list ascii) (u : URL.url) :
  URL.file_state input = Some u -> URL.scheme u = "file".
Proof.
  assert (Hhost : forall input buffer,
            URL.file_host_state input buffer = Some u -> URL.scheme u = "file").
  { intro i. induction i as [|c rest IH]; intro b; simpl.
    - apply file_host_done_scheme.
    - destruct (URL.ends_authority true c); [apply file_host_done_scheme|apply IH]. }
  unfold URL.file_state, URL.file_slash_state, URL.with_host.
  destruct input as [|c rest]; [intro E; inversion E; reflexivity|].
  destruct (_ || _); [|intro E; inversion E; reflexivity].
  destruct rest as [|c' rest']; [intro E; inversion E; reflexivity|].
  destruct (_ || _); [apply Hhost|intro E; inversion E; reflexivity].
Qed.

Lemma scheme_done_host (scheme : string) (remaining : list ascii) (u : URL.url) :
  URL.scheme_done scheme remaining = Some u ->
  URL.scheme u = scheme
  /\ (URL.default_port scheme <> None -> has_host u = true).
Proof.
  intro Hdone.
  destruct (String.eqb scheme "file") eqn:Efile.
  - unfold URL.scheme_done in Hdone. rewrite Efile in Hdone.
    apply String.eqb_eq in Efile. subst scheme.
    split; [exact (file_state_scheme _ _ Hdone)|].
    intro Hport. exfalso. apply Hport. reflexivity.
  - destruct (URL.is_special scheme) eqn:Hspecial.
    + unfold URL.scheme_done in Hdone. rewrite Efile, Hspecial in Hdone.
      destruct (slashes_state_cases scheme remaining) as [input' E].
      rewrite E in Hdone. apply ignore_slashes_host in Hdone as [Hs Hh].
      split; [exact Hs|]. intros _. exact (Hh Hspecial).
    + assert (Hport : URL.default_port scheme = None).
      { unfold URL.is_special in Hspecial. rewrite Efile in Hspecial.
        destruct (URL.default_port scheme); [discriminate|reflexivity]. }
      destruct (not_special_cases scheme remaining Hspecial Efile) as [E|[input' E]];
        rewrite E in Hdone.
      * inversion Hdone. split; [reflexivity|]. intro H. exfalso. exact (H Hport).
      * apply authority_state_host in Hdone as [Hs _].
        split; [exact Hs|]. intro H. exfalso. exact (H Hport).
Qed.

Lemma scheme_state_done (input buffer : list ascii) (u : URL.url) :
  URL.scheme_state input buffer = Some u ->
  exists scheme remaining, URL.scheme_done scheme remaining = Some u.
Proof.
  revert buffer. induction input as [|c rest IH]; intros buffer; simpl.
  - discriminate.
  - destruct (_ || _); [apply IH|].
    destruct (Ascii.eqb c ":"); [|discriminate].
    intro H. eexists _, _. exact H.
Qed.

(** In a URL of a special scheme other than [file] the host is never
    missing: for [http], [https], [ws], [wss] and [ftp], the schemes
    with a default port, whatever the parser accepts has a scheme and a
    host. *)
Lemma special_URL_has_host (s : string) (u : URL.url) :
  URL.basic_URL_parse s = Some u ->
  URL.default_port (URL.scheme u) <> None ->
  has_host u = true.
Proof.
  unfold URL.basic_URL_parse, URL.scheme_start_state.
  destruct (filter _ _) as [|c rest]; [discriminate|].
  destruct (URL.is_alpha c); [|discriminate].
  intros Hstate Hport.
  apply scheme_state_done in Hstate as (scheme & remaining & Hdone).
  apply scheme_done_host in Hdone as [Hscheme Hhost].
  apply Hhost. rewrite <- Hscheme. exact Hport.
Qed.

End URLFacts.

(** ** The middleware *)

Section Middleware.
Context {engine : Engine}.
Variables (next : M unit) (w : world) (imageUrl : value).
Hypothesis Hfield : Destructure (req_body w) "imageUrl" = Normal imageUrl.

(** A falsy [imageUrl]: the first [return]. *)
Lemma checkImageUrl_required :
  ToBoolean imageUrl = false ->
  sent w = None ->
  checkImageUrl next w
  = (Normal tt,
     set_sent (JsonBody (error_body (VString "Image URL is required")))
       (set_statusCode 400 w)).
Proof.
  intros Hfalsy Hsent. unfold checkImageUrl, bind, req_dot_body, eval.
  rewrite Hfield, Hfalsy. simpl. unfold res_status, res_json. simpl.
  rewrite Hsent. reflexivity.
Qed.

(** A truthy [imageUrl] on which [new URL] throws: the [catch] block. *)
Lemma checkImageUrl_invalid (e : value) :
  ToBoolean imageUrl = true ->
  new_URL imageUrl = Throw e ->
  sent w = None ->
  checkImageUrl next w
  = (Normal tt,
     set_sent (JsonBody (error_body (VString "Invalid URL format")))
       (set_statusCode 400 w)).
Proof.
  intros Htruthy Hurl Hsent. unfold checkImageUrl, bind, req_dot_body, eval.
  rewrite Hfield, Htruthy. simpl. unfold try_catch. rewrite Hurl.
  unfold res_status, res_json. simpl. rewrite Hsent. reflexivity.
Qed.

(** A truthy [imageUrl] that [new URL] accepts: the middleware is [next],
    provided [next] does not throw into the [try] block. *)
Lemma checkImageUrl_next (u : URL.url) :
  ToBoolean imageUrl = true ->
  new_URL imageUrl = Normal u ->
  (forall e w', next w <> (Throw e, w')) ->
  checkImageUrl next w = next w.
Proof.
  intros Htruthy Hurl Hnext. unfold checkImageUrl, bind, req_dot_body, eval.
  rewrite Hfield, Htruthy. simpl. unfold try_catch. rewrite Hurl.
  destruct (next w) as [[a|e|] w'] eqn:E; try reflexivity.
  exfalso. exact (Hnext e w' eq_refl).
Qed.

End Middleware.

(** An [async] function never throws at its caller. *)
Lemma async_no_throw (body : M unit) (w : world) (e : value) (w' : world) :
  async body w <> (Throw e, w').
Proof. unfold async. destruct (body w) as [[a|e'|] w'']; discriminate. Qed.

(** The three outcomes of the validation leave nothing out. *)
Lemma validation_cases {engine : Engine} (v : value) :
  ToBoolean v = false
  \/ (ToBoolean v = true /\ exists e, new_URL v = Throw e)
  \/ passes_validation v = true.
Proof.
  unfold passes_validation. pose proof (new_URL_settles v) as Hsettles.
  destruct (ToBoolean v); [|left; reflexivity].
  destruct (new_URL v) as [u|e|]; [right; right; reflexivity| |congruence].
  right; left. split; [reflexivity|]. exists e. reflexivity.
Qed.

(** What is valid in the words of the specification passes the
    validation of the code; the converse fails, at [mailto:x] for one. *)
Lemma valid_URL_passes {engine : Engine} (s : string) :
  is_valid_absolute_URL s = true -> passes_validation (VString s) = true.
Proof.
  unfold is_valid_absolute_URL, passes_validation, new_URL. simpl.
  destruct s as [|c s]; [discriminate|].
  destruct (URL.basic_URL_parse (String c s)); [reflexivity|discriminate].
Qed.

Lemma passes_validation_inv {engine : Engine} (v : value) :
  passes_validation v = true ->
  ToBoolean v = true /\ exists u, new_URL v = Normal u.
Proof.
  unfold passes_validation. intro H. apply andb_prop in H as [Ht Hu].
  split; [exact Ht|]. destruct (new_URL v) as [u|e|]; try discriminate.
  exists u; reflexivity.
Qed.

(** ** The handlers *)

(** [processError] on a value whose [message] can be read. *)
Lemma processError_run (err message : value) (w : world) :
  Get err "message" = Normal message ->
  sent w = None ->
  processError err w
  = (Normal tt,
     set_sent
       (JsonBody (error_body
          (js_or message (VString "An error occurred during image analysis"))))
       (set_statusCode 500 (add_console [VString "Error:"; err] w))).
Proof.
  intros Hmessage Hsent.
  unfold processError, bind, console_error, res_status, eval, res_json.
  rewrite Hmessage. simpl. rewrite Hsent. reflexivity.
Qed.

(** [processError] makes no call, whatever it is given. *)
Lemma processError_calls (err : value) (w : world) :
  calls (snd (processError err w)) = calls w.
Proof.
  unfold processError, bind, console_error, res_status, eval, res_json.
  destruct (Get err "message"); simpl; try reflexivity.
  destruct (sent w); reflexivity.
Qed.

Section Handlers.
Context {engine : Engine}.
Variable visionProcessor : client.
Variable API_BASE_URL : option string.

Lemma post_route (ep : endpoint) (body : value) :
  post visionProcessor API_BASE_URL ep body
  = final_handler (checkImageUrl (handler_of visionProcessor ep) (incoming body)).
Proof. destruct ep; reflexivity. Qed.

Lemma handler_is_async (ep : endpoint) :
  exists body, handler_of visionProcessor ep = async body.
Proof. destruct ep; eexists; reflexivity. Qed.

(** A request that passes the validation is the handler's alone. *)
Lemma post_valid (ep : endpoint) (body imageUrl : value) :
  Get body "imageUrl" = Normal imageUrl ->
  passes_validation imageUrl = true ->
  post visionProcessor API_BASE_URL ep body
  = snd (handler_of visionProcessor ep (incoming body)).
Proof.
  intros Hfield Hvalid. apply passes_validation_inv in Hvalid as [Ht [u Hu]].
  rewrite post_route. destruct (handler_is_async ep) as [h Hh]. rewrite Hh.
  rewrite (checkImageUrl_next (async h) (incoming body) imageUrl
             (Get_Destructure _ _ _ Hfield) u Ht Hu (async_no_throw h _)).
  unfold async. destruct (h (incoming body)) as [[a|e|] w']; reflexivity.
Qed.

(** The handler from the moment its call settles: the rest of the [try]
    block, or the [catch] block. *)
Lemma handler_run (ep : endpoint) (body imageUrl : value) :
  Get body "imageUrl" = Normal imageUrl ->
  handler_of visionProcessor ep (incoming body)
  = async (try_catch
      (match visionProcessor (call_of ep imageUrl) with
       | Resolved analysis =>
           (shaped <- eval (projection_of ep analysis) ;; res_json shaped)%js
       | Rejected reason => eval (Throw reason)
       | Unsettled => eval Pending
       end)
      processError)
      (add_call (call_of ep imageUrl) (incoming body)).
Proof.
  intros Hfield.
  destruct ep; unfold handler_of; cbv beta iota delta
    [analyze_handler tags_handler objects_handler describe_handler text_handler
     faces_handler colors_handler async try_catch bind req_body_imageUrl
     req_dot_body eval await incoming req_body];
    rewrite Hfield; cbv beta iota delta [call_of projection_of];
    destruct (visionProcessor _); reflexivity.
Qed.

(** The call resolves and the projection can be read: [res.json]. *)
Lemma post_resolved (ep : endpoint) (body imageUrl analysis shaped : value) :
  Get body "imageUrl" = Normal imageUrl ->
  passes_validation imageUrl = true ->
  visionProcessor (call_of ep imageUrl) = Resolved analysis ->
  projection_of ep analysis = Normal shaped ->
  post visionProcessor API_BASE_URL ep body
  = set_sent (JsonBody shaped) (add_call (call_of ep imageUrl) (incoming body)).
Proof.
  intros Hfield Hvalid Hcall Hshape.
  rewrite (post_valid ep body imageUrl Hfield Hvalid), (handler_run ep body imageUrl Hfield).
  rewrite Hcall. unfold async, try_catch, bind, eval. rewrite Hshape. reflexivity.
Qed.

(** The call rejects with a value whose [message] can be read: the
    [catch] block and [processError]. *)
Lemma post_rejected (ep : endpoint) (body imageUrl reason message : value) :
  Get body "imageUrl" = Normal imageUrl ->
  passes_validation imageUrl = true ->
  visionProcessor (call_of ep imageUrl) = Rejected reason ->
  Get reason "message" = Normal message ->
  post visionProcessor API_BASE_URL ep body
  = set_sent
      (JsonBody (error_body
         (js_or message (VString "An error occurred during image analysis"))))
      (set_statusCode 500
         (add_console [VString "Error:"; reason]
            (add_call (call_of ep imageUrl) (incoming body)))).
Proof.
  intros Hfield Hvalid Hcall Hmessage.
  rewrite (post_valid ep body imageUrl Hfield Hvalid), (handler_run ep body imageUrl Hfield).
  rewrite Hcall. unfold async, try_catch, eval.
  rewrite (processError_run reason message
             (add_call (call_of ep imageUrl) (incoming body)) Hmessage eq_refl).
  reflexivity.
Qed.

(** The call rejects with [undefined] or [null]: [err.message] throws
    inside [processError], after the status was set and before anything
    is sent; the handler's promise rejects and the request is left
    without an answer. *)
Lemma post_rejected_nullish (ep : endpoint) (body imageUrl reason : value) :
  Get body "imageUrl" = Normal imageUrl ->
  passes_validation imageUrl = true ->
  visionProcessor (call_of ep imageUrl) = Rejected reason ->
  is_nullish reason = true ->
  let w := post visionProcessor API_BASE_URL ep body in
  response w = (500%Z, None) /\ exists e, unhandled w = [e].
Proof.
  intros Hfield Hvalid Hcall Hnullish; cbv zeta.
  rewrite (post_valid ep body imageUrl Hfield Hvalid), (handler_run ep body imageUrl Hfield).
  rewrite Hcall.
  destruct reason; try discriminate Hnullish; (split; [reflexivity|eexists; reflexivity]).
Qed.

(** Whatever the client does, a request that passes the validation makes
    one call: [call_of]. *)
Lemma post_calls (ep : endpoint) (body imageUrl : value) :
  Get body "imageUrl" = Normal imageUrl ->
  passes_validation imageUrl = true ->
  calls (post visionProcessor API_BASE_URL ep body) = [call_of ep imageUrl].
Proof.
  intros Hfield Hvalid.
  rewrite (post_valid ep body imageUrl Hfield Hvalid), (handler_run ep body imageUrl Hfield).
  set (w := add_call (call_of ep imageUrl) (incoming body)).
  assert (Hw : calls w = [call_of ep imageUrl]) by reflexivity.
  unfold async, try_catch, bind, eval.
  destruct (visionProcessor (call_of ep imageUrl)) as [analysis|reason|].
  - destruct (projection_of ep analysis) as [shaped|e|]; simpl; try exact Hw.
    pose proof (processError_calls e w) as Hp.
    destruct (processError e w) as [[a|e'|] w']; simpl in *; congruence.
  - pose proof (processError_calls reason w) as Hp.
    destruct (processError reason w) as [[a|e'|] w']; simpl in *; congruence.
  - exact Hw.
Qed.

(** A request that fails the validation, either way, makes no call and
    is answered 400 with the message of its kind. *)
Lemma post_required (ep : endpoint) (body imageUrl : value) :
  Get body "imageUrl" = Normal imageUrl ->
  ToBoolean imageUrl = false ->
  post visionProcessor API_BASE_URL ep body
  = set_sent (JsonBody (error_body (VString "Image URL is required")))
      (set_statusCode 400 (incoming body)).
Proof.
  intros Hfield Hfalsy. rewrite post_route.
  rewrite (checkImageUrl_required _ (incoming body) imageUrl
             (Get_Destructure _ _ _ Hfield) Hfalsy eq_refl).
  reflexivity.
Qed.

Lemma post_invalid (ep : endpoint) (body imageUrl e : value) :
  Get body "imageUrl" = Normal imageUrl ->
  ToBoolean imageUrl = true ->
  new_URL imageUrl = Throw e ->
  post visionProcessor API_BASE_URL ep body
  = set_sent (JsonBody (error_body (VString "Invalid URL format")))
      (set_statusCode 400 (incoming body)).
Proof.
  intros Hfield Htruthy Hurl. rewrite post_route.
  rewrite (checkImageUrl_invalid _ (incoming body) imageUrl
             (Get_Destructure _ _ _ Hfield) e Htruthy Hurl eq_refl).
  reflexivity.
Qed.

End Handlers.

Lemma new_URL_string {engine : Engine} (s : string) :
  URL.basic_URL_parse s = None ->
  new_URL (VString s) = Throw (TypeError "Invalid URL").
Proof. intro H. unfold new_URL. simpl. rewrite H. reflexivity. Qed.

Lemma ToBoolean_string (s : string) : s <> "" -> ToBoolean (VString s) = true.
Proof. intro H. simpl. apply String.eqb_neq in H. rewrite H. reflexivity. Qed.

(** * The claims *)

(** ** Validation failures *)

(** C1.  When reading [imageUrl] from the request body gives [undefined]
    (the field is absent) or the empty string, each of the seven POST
    endpoints answers 400 with the JSON body
    [{ error: 'Image URL is required' }], and no call is made to the
    vision client. *)
Theorem missing_imageUrl_is_rejected {engine : Engine}
    (visionProcessor : client) (API_BASE_URL : option string)
    (ep : endpoint) (body : value) :
  Get body "imageUrl" = Normal VUndefined
  \/ Get body "imageUrl" = Normal (VString "") ->
  let w := post visionProcessor API_BASE_URL ep body in
  statusCode w = 400%Z
  /\ sent w = Some (JsonBody (VObject [("error", VString "Image URL is required")]))
  /\ calls w = [].
Proof.
  intros [H|H]; cbv zeta;
    rewrite (post_required visionProcessor API_BASE_URL ep body _ H eq_refl);
    repeat split.
Qed.

Lemma missing_imageUrl_is_rejected_witness :
  (Get (VObject []) "imageUrl" = Normal VUndefined
   \/ Get (VObject []) "imageUrl" = Normal (VString ""))
  /\ statusCode (@post plain_engine (resolving VNull) None tags (VObject [])) = 400%Z
  /\ sent (@post plain_engine (resolving VNull) None tags (VObject []))
     = Some (JsonBody (VObject [("error", VString "Image URL is required")]))
  /\ calls (@post plain_engine (resolving VNull) None tags (VObject [])) = [].
Proof.
  split; [left; reflexivity|].
  apply (@missing_imageUrl_is_rejected plain_engine (resolving VNull) None tags
           (VObject [])).
  left; reflexivity.
Defined.

(** C2, as the specification states it, does not hold: [mailto:x] has a
    scheme and no host, so it is not a valid absolute URL in the
    specification's sense, yet [new URL] accepts it, the request goes
    through and the vision client is called. *)
Lemma hostless_URL_is_not_rejected :
  ~ (forall (engine : Engine) (visionProcessor : client)
            (API_BASE_URL : option string) (ep : endpoint) (body : value)
            (s : string),
        Get body "imageUrl" = Normal (VString s) ->
        s <> "" ->
        is_valid_absolute_URL s = false ->
        statusCode (post visionProcessor API_BASE_URL ep body) = 400%Z
        /\ calls (post visionProcessor API_BASE_URL ep body) = []).
Proof.
  intro claim.
  destruct (claim plain_engine (resolving (VObject [])) None analyze
              (VObject [("imageUrl", VString "mailto:x")]) "mailto:x"
              eq_refl ltac:(discriminate) eq_refl) as [status _].
  vm_compute in status. discriminate status.
Qed.

(** What happens at that input: the request is answered by the handler,
    after one call to the vision client. *)
Example mailto_reaches_the_client :
  let w := @post plain_engine (resolving (VObject [("requestId", VString "r-1")]))
             None analyze (VObject [("imageUrl", VString "mailto:x")]) in
  @is_valid_absolute_URL plain_engine "mailto:x" = false
  /\ response w = (200%Z, Some (JsonBody (VObject [("requestId", VString "r-1")])))
  /\ calls w = [call_of analyze (VString "mailto:x")].
Proof. cbv zeta. repeat split. Qed.

(** C2, amended.  When [imageUrl] is a non-empty string on which the URL
    parser returns failure (so that [new URL] throws), each of the seven
    POST endpoints answers 400 with the JSON body
    [{ error: 'Invalid URL format' }], and no call is made to the vision
    client. *)
Theorem unparsable_imageUrl_is_rejected {engine : Engine}
    (visionProcessor : client) (API_BASE_URL : option string)
    (ep : endpoint) (body : value) (s : string) :
  Get body "imageUrl" = Normal (VString s) ->
  s <> "" ->
  URL.basic_URL_parse s = None ->
  let w := post visionProcessor API_BASE_URL ep body in
  statusCode w = 400%Z
  /\ sent w = Some (JsonBody (VObject [("error", VString "Invalid URL format")]))
  /\ calls w = [].
Proof.
  intros Hfield Hs Hparse; cbv zeta.
  rewrite (post_invalid visionProcessor API_BASE_URL ep body _ _ Hfield
             (ToBoolean_string s Hs) (new_URL_string s Hparse)).
  repeat split.
Qed.

Lemma unparsable_imageUrl_is_rejected_witness :
  Get (VObject [("imageUrl", VString "not a url")]) "imageUrl"
  = Normal (VString "not a url")
  /\ "not a url" <> ""
  /\ @URL.basic_URL_parse plain_engine "not a url" = None
  /\ statusCode (@post plain_engine (resolving VNull) None faces
                   (VObject [("imageUrl", VString "not a url")])) = 400%Z
  /\ sent (@post plain_engine (resolving VNull) None faces
             (VObject [("imageUrl", VString "not a url")]))
     = Some (JsonBody (VObject [("error", VString "Invalid URL format")]))
  /\ calls (@post plain_engine (resolving VNull) None faces
              (VObject [("imageUrl", VString "not a url")])) = [].
Proof.
  split; [reflexivity|]. split; [discriminate|]. split; [reflexivity|].
  apply (@unparsable_imageUrl_is_rejected plain_engine (resolving VNull) None faces
           (VObject [("imageUrl", VString "not a url")]) "not a url");
    [reflexivity | discriminate | reflexivity].
Defined.

(** C9, as the specification states it, does not hold: both kinds of
    validation failure are answered 400 with a body of the shape
    [{ error: message }], but the two responses are not the same. *)
Lemma validation_failures_are_distinguished :
  ~ (forall (engine : Engine) (visionProcessor : client)
            (API_BASE_URL : option string) (ep : endpoint)
            (missing malformed : value) (s : string),
        Get missing "imageUrl" = Normal VUndefined
        \/ Get missing "imageUrl" = Normal (VString "") ->
        Get malformed "imageUrl" = Normal (VString s) ->
        s <> "" ->
        URL.basic_URL_parse s = None ->
        let r1 := post visionProcessor API_BASE_URL ep missing in
        let r2 := post visionProcessor API_BASE_URL ep malformed in
        statusCode r1 = 400%Z /\ statusCode r2 = 400%Z
        /\ (exists m, sent r1 = Some (JsonBody (VObject [("error", m)])))
        /\ (exists m, sent r2 = Some (JsonBody (VObject [("error", m)])))
        /\ response r1 = response r2).
Proof.
  intro claim.
  destruct (claim plain_engine (resolving VNull) None analyze
              (VObject []) (VObject [("imageUrl", VString "not a url")])
              "not a url" (or_introl eq_refl) eq_refl ltac:(discriminate) eq_refl)
    as (_ & _ & _ & _ & same).
  vm_compute in same. discriminate same.
Qed.

(** C9, amended.  Both kinds of validation failure are answered 400 with
    a JSON body of the shape [{ error: message }]; the message names the
    kind: 'Image URL is required' when [imageUrl] is absent or empty,
    'Invalid URL format' when it is a non-empty string the URL parser
    fails on.  The two responses differ in that message only. *)
Theorem validation_failures_share_status_and_shape {engine : Engine}
    (visionProcessor : client) (API_BASE_URL : option string)
    (ep : endpoint) (missing malformed : value) (s : string) :
  Get missing "imageUrl" = Normal VUndefined
  \/ Get missing "imageUrl" = Normal (VString "") ->
  Get malformed "imageUrl" = Normal (VString s) ->
  s <> "" ->
  URL.basic_URL_parse s = None ->
  response (post visionProcessor API_BASE_URL ep missing)
  = (400%Z, Some (JsonBody (VObject [("error", VString "Image URL is required")])))
  /\ response (post visionProcessor API_BASE_URL ep malformed)
     = (400%Z, Some (JsonBody (VObject [("error", VString "Invalid URL format")]))).
Proof.
  intros Hmissing Hfield Hs Hparse. split.
  - destruct Hmissing as [H|H];
      rewrite (post_required visionProcessor API_BASE_URL ep missing _ H eq_refl);
      reflexivity.
  - rewrite (post_invalid visionProcessor API_BASE_URL ep malformed _ _ Hfield
               (ToBoolean_string s Hs) (new_URL_string s Hparse)).
    reflexivity.
Qed.

Lemma validation_failures_share_status_and_shape_witness :
  (Get (VObject [("imageUrl", VString "")]) "imageUrl" = Normal VUndefined
   \/ Get (VObject [("imageUrl", VString "")]) "imageUrl" = Normal (VString ""))
  /\ Get (VObject [("imageUrl", VString "://bad")]) "imageUrl"
     = Normal (VString "://bad")
  /\ "://bad" <> ""
  /\ @URL.basic_URL_parse plain_engine "://bad" = None
  /\ response (@post plain_engine (resolving VNull) None text
                 (VObject [("imageUrl", VString "")]))
     = (400%Z, Some (JsonBody (VObject [("error", VString "Image URL is required")])))
  /\ response (@post plain_engine (resolving VNull) None text
                 (VObject [("imageUrl", VString "://bad")]))
     = (400%Z, Some (JsonBody (VObject [("error", VString "Invalid URL format")]))).
Proof.
  split; [right; reflexivity|]. split; [reflexivity|].
  split; [discriminate|]. split; [reflexivity|].
  apply (@validation_failures_share_status_and_shape plain_engine (resolving VNull)
           None text (VObject [("imageUrl", VString "")])
           (VObject [("imageUrl", VString "://bad")]) "://bad");
    [right; reflexivity | reflexivity | discriminate | reflexivity].
Defined.

(** ** The validator as a gate *)

Lemma Get_req_body_imageUrl (w : world) (imageUrl : value) :
  Get (req_body w) "imageUrl" = Normal imageUrl ->
  req_body_imageUrl w = (Normal imageUrl, w).
Proof.
  intro H. unfold req_body_imageUrl, bind, req_dot_body, eval. rewrite H.
  reflexivity.
Qed.

(** C8.  In any state [w] of a request whose [imageUrl] passes the
    validation: the validator alone (followed by a stage that does
    nothing) leaves the whole state as it was, request body included, and
    writes nothing to the response, the console or the client; followed
    by an [async] handler it behaves as that handler started in [w]; and
    [req.body.imageUrl], as the handler reads it there, is the value
    that was validated. *)
Theorem checkImageUrl_forwards_unchanged {engine : Engine}
    (w : world) (imageUrl : value) :
  Get (req_body w) "imageUrl" = Normal imageUrl ->
  passes_validation imageUrl = true ->
  checkImageUrl (ret tt) w = (Normal tt, w)
  /\ (forall handler : M unit, checkImageUrl (async handler) w = async handler w)
  /\ req_body_imageUrl w = (Normal imageUrl, w).
Proof.
  intros Hfield Hvalid. apply passes_validation_inv in Hvalid as [Ht [u Hu]].
  pose proof (Get_Destructure _ _ _ Hfield) as Hd.
  repeat split.
  - apply (checkImageUrl_next (ret tt) w imageUrl Hd u Ht Hu). discriminate.
  - intro handler.
    apply (checkImageUrl_next (async handler) w imageUrl Hd u Ht Hu).
    apply async_no_throw.
  - apply Get_req_body_imageUrl, Hfield.
Qed.

Lemma checkImageUrl_forwards_unchanged_witness :
  Get (req_body (incoming (VObject [("imageUrl", VString "https://example.com/cat.png")])))
      "imageUrl"
  = Normal (VString "https://example.com/cat.png")
  /\ @passes_validation plain_engine (VString "https://example.com/cat.png") = true
  /\ @checkImageUrl plain_engine (ret tt)
       (incoming (VObject [("imageUrl", VString "https://example.com/cat.png")]))
     = (Normal tt, incoming (VObject [("imageUrl", VString "https://example.com/cat.png")]))
  /\ (forall handler : M unit,
        @checkImageUrl plain_engine (async handler)
          (incoming (VObject [("imageUrl", VString "https://example.com/cat.png")]))
        = async handler
            (incoming (VObject [("imageUrl", VString "https://example.com/cat.png")])))
  /\ req_body_imageUrl
       (incoming (VObject [("imageUrl", VString "https://example.com/cat.png")]))
     = (Normal (VString "https://example.com/cat.png"),
        incoming (VObject [("imageUrl", VString "https://example.com/cat.png")])).
Proof.
  split; [reflexivity|]. split; [reflexivity|].
  apply (@checkImageUrl_forwards_unchanged plain_engine
           (incoming (VObject [("imageUrl", VString "https://example.com/cat.png")]))
           (VString "https://example.com/cat.png")); reflexivity.
Defined.

(** ** Successful calls *)

(** C3.  For an [imageUrl] that passes the validation, when
    [analyzeImage] resolves with an object that has [tags], [faces] and
    [color] fields, [/api/vision/tags] answers 200 with exactly the value
    of [tags], [/api/vision/faces] with exactly the value of [faces], and
    [/api/vision/colors] with exactly the value of [color]. *)
Theorem projections_of_the_composite_result {engine : Engine}
    (visionProcessor : client) (API_BASE_URL : option string)
    (body imageUrl : value) (fields : list (string * value))
    (tagsArray facesArray colorObject : value) :
  Get body "imageUrl" = Normal imageUrl ->
  passes_validation imageUrl = true ->
  (forall options, visionProcessor (analyzeImage imageUrl options)
                   = Resolved (VObject fields)) ->
  lookup "tags" fields = Some tagsArray ->
  lookup "faces" fields = Some facesArray ->
  lookup "color" fields = Some colorObject ->
  response (post visionProcessor API_BASE_URL tags body)
  = (200%Z, Some (JsonBody tagsArray))
  /\ response (post visionProcessor API_BASE_URL faces body)
     = (200%Z, Some (JsonBody facesArray))
  /\ response (post visionProcessor API_BASE_URL colors body)
     = (200%Z, Some (JsonBody colorObject)).
Proof.
  intros Hfield Hvalid Hcall Htags Hfaces Hcolor.
  repeat split.
  - rewrite (post_resolved visionProcessor API_BASE_URL tags body imageUrl
               (VObject fields) tagsArray Hfield Hvalid (Hcall _)); [reflexivity|].
    simpl. rewrite Htags. reflexivity.
  - rewrite (post_resolved visionProcessor API_BASE_URL faces body imageUrl
               (VObject fields) facesArray Hfield Hvalid (Hcall _)); [reflexivity|].
    simpl. rewrite Hfaces. reflexivity.
  - rewrite (post_resolved visionProcessor API_BASE_URL colors body imageUrl
               (VObject fields) colorObject Hfield Hvalid (Hcall _)); [reflexivity|].
    simpl. rewrite Hcolor. reflexivity.
Qed.

Lemma projections_of_the_composite_result_witness :
  let body := VObject [("imageUrl", VString "https://example.com/cat.png")] in
  let fields :=
    [("tags", VArray [VObject [("name", VString "cat")]]);
     ("faces", VArray []);
     ("color", VObject [("dominantColorForeground", VString "Grey")])] in
  Get body "imageUrl" = Normal (VString "https://example.com/cat.png")
  /\ @passes_validation plain_engine (VString "https://example.com/cat.png") = true
  /\ (forall options,
        resolving (VObject fields)
          (analyzeImage (VString "https://example.com/cat.png") options)
        = Resolved (VObject fields))
  /\ lookup "tags" fields = Some (VArray [VObject [("name", VString "cat")]])
  /\ lookup "faces" fields = Some (VArray [])
  /\ lookup "color" fields
     = Some (VObject [("dominantColorForeground", VString "Grey")])
  /\ response (@post plain_engine (resolving (VObject fields)) None tags body)
     = (200%Z, Some (JsonBody (VArray [VObject [("name", VString "cat")]])))
  /\ response (@post plain_engine (resolving (VObject fields)) None faces body)
     = (200%Z, Some (JsonBody (VArray [])))
  /\ response (@post plain_engine (resolving (VObject fields)) None colors body)
     = (200%Z, Some (JsonBody (VObject [("dominantColorForeground", VString "Grey")]))).
Proof.
  cbv zeta.
  split; [reflexivity|]. split; [reflexivity|]. split; [reflexivity|].
  split; [reflexivity|]. split; [reflexivity|]. split; [reflexivity|].
  apply (@projections_of_the_composite_result plain_engine
           (resolving (VObject
              [("tags", VArray [VObject [("name", VString "cat")]]);
               ("faces", VArray []);
               ("color", VObject [("dominantColorForeground", VString "Grey")])]))
           None
           (VObject [("imageUrl", VString "https://example.com/cat.png")])
           (VString "https://example.com/cat.png")
           [("tags", VArray [VObject [("name", VString "cat")]]);
            ("faces", VArray []);
            ("color", VObject [("dominantColorForeground", VString "Grey")])]);
    reflexivity.
Defined.

(** C10.  For an [imageUrl] that passes the validation, when
    [analyzeImage] resolves with an object that lacks the field an
    endpoint projects ([tags], [faces], [color]), that endpoint still
    answers 200, with [undefined] as the body; [processError] is not
    entered: nothing is written to the console and no rejection is left
    unhandled. *)
Theorem missing_projection_is_not_an_error {engine : Engine}
    (visionProcessor : client) (API_BASE_URL : option string)
    (body imageUrl : value) (fields : list (string * value)) :
  Get body "imageUrl" = Normal imageUrl ->
  passes_validation imageUrl = true ->
  (forall options, visionProcessor (analyzeImage imageUrl options)
                   = Resolved (VObject fields)) ->
  let answers_undefined (w : world) :=
    response w = (200%Z, Some (JsonBody VUndefined))
    /\ console w = [] /\ unhandled w = [] in
  (lookup "tags" fields = None ->
   answers_undefined (post visionProcessor API_BASE_URL tags body))
  /\ (lookup "faces" fields = None ->
      answers_undefined (post visionProcessor API_BASE_URL faces body))
  /\ (lookup "color" fields = None ->
      answers_undefined (post visionProcessor API_BASE_URL colors body)).
Proof.
  intros Hfield Hvalid Hcall; cbv zeta.
  split; [|split]; intro Habsent.
  - rewrite (post_resolved visionProcessor API_BASE_URL tags body imageUrl
               (VObject fields) VUndefined Hfield Hvalid (Hcall _));
      [repeat split | simpl; rewrite Habsent; reflexivity].
  - rewrite (post_resolved visionProcessor API_BASE_URL faces body imageUrl
               (VObject fields) VUndefined Hfield Hvalid (Hcall _));
      [repeat split | simpl; rewrite Habsent; reflexivity].
  - rewrite (post_resolved visionProcessor API_BASE_URL colors body imageUrl
               (VObject fields) VUndefined Hfield Hvalid (Hcall _));
      [repeat split | simpl; rewrite Habsent; reflexivity].
Qed.

Lemma missing_projection_is_not_an_error_witness :
  let body := VObject [("imageUrl", VString "https://example.com/cat.png")] in
  let fields := [("requestId", VString "r-1")] in
  Get body "imageUrl" = Normal (VString "https://example.com/cat.png")
  /\ @passes_validation plain_engine (VString "https://example.com/cat.png") = true
  /\ (forall options,
        resolving (VObject fields)
          (analyzeImage (VString "https://example.com/cat.png") options)
        = Resolved (VObject fields))
  /\ (lookup "tags" fields = None
      /\ response (@post plain_engine (resolving (VObject fields)) None tags body)
         = (200%Z, Some (JsonBody VUndefined))
      /\ console (@post plain_engine (resolving (VObject fields)) None tags body) = []
      /\ unhandled (@post plain_engine (resolving (VObject fields)) None tags body) = [])
  /\ (lookup "faces" fields = None
      /\ response (@post plain_engine (resolving (VObject fields)) None faces body)
         = (200%Z, Some (JsonBody VUndefined))
      /\ console (@post plain_engine (resolving (VObject fields)) None faces body) = []
      /\ unhandled (@post plain_engine (resolving (VObject fields)) None faces body) = [])
  /\ (lookup "color" fields = None
      /\ response (@post plain_engine (resolving (VObject fields)) None colors body)
         = (200%Z, Some (JsonBody VUndefined))
      /\ console (@post plain_engine (resolving (VObject fields)) None colors body) = []
      /\ unhandled (@post plain_engine (resolving (VObject fields)) None colors body) = []).
Proof.
  cbv zeta.
  split; [reflexivity|]. split; [reflexivity|]. split; [reflexivity|].
  destruct (@missing_projection_is_not_an_error plain_engine
              (resolving (VObject [("requestId", VString "r-1")])) None
              (VObject [("imageUrl", VString "https://example.com/cat.png")])
              (VString "https://example.com/cat.png")
              [("requestId", VString "r-1")] eq_refl eq_refl (fun _ => eq_refl))
    as (Htags & Hfaces & Hcolor).
  split; [split; [reflexivity | exact (Htags eq_refl)]|].
  split; [split; [reflexivity | exact (Hfaces eq_refl)]|].
  split; [reflexivity | exact (Hcolor eq_refl)].
Defined.

(** C4.  For an [imageUrl] that passes the validation,
    [/api/vision/analyze] makes exactly one call, [analyzeImage], with
    that [imageUrl], the nine visual features and the detail
    [Landmarks]; when the call resolves, the endpoint answers 200 with
    the value it resolved with. *)
Theorem analyze_requests_the_full_feature_set {engine : Engine}
    (visionProcessor : client) (API_BASE_URL : option string)
    (body imageUrl : value) :
  Get body "imageUrl" = Normal imageUrl ->
  passes_validation imageUrl = true ->
  let call :=
    analyzeImage imageUrl
      {| visualFeatures :=
           ["ImageType"; "Faces"; "Adult"; "Categories"; "Color"; "Tags";
            "Description"; "Objects"; "Brands"];
         details := Some ["Landmarks"] |} in
  calls (post visionProcessor API_BASE_URL analyze body) = [call]
  /\ forall analysis,
       visionProcessor call = Resolved analysis ->
       response (post visionProcessor API_BASE_URL analyze body)
       = (200%Z, Some (JsonBody analysis)).
Proof.
  intros Hfield Hvalid; cbv zeta. split.
  - exact (post_calls visionProcessor API_BASE_URL analyze body imageUrl Hfield Hvalid).
  - intros analysis Hcall.
    rewrite (post_resolved visionProcessor API_BASE_URL analyze body imageUrl
               analysis analysis Hfield Hvalid Hcall eq_refl).
    reflexivity.
Qed.

Lemma analyze_requests_the_full_feature_set_witness :
  let body := VObject [("imageUrl", VString "https://example.com/cat.png")] in
  let analysis := VObject [("categories", VArray []); ("requestId", VString "r-1")] in
  let call :=
    analyzeImage (VString "https://example.com/cat.png")
      {| visualFeatures :=
           ["ImageType"; "Faces"; "Adult"; "Categories"; "Color"; "Tags";
            "Description"; "Objects"; "Brands"];
         details := Some ["Landmarks"] |} in
  Get body "imageUrl" = Normal (VString "https://example.com/cat.png")
  /\ @passes_validation plain_engine (VString "https://example.com/cat.png") = true
  /\ calls (@post plain_engine (resolving analysis) None analyze body) = [call]
  /\ resolving analysis call = Resolved analysis
  /\ response (@post plain_engine (resolving analysis) None analyze body)
     = (200%Z, Some (JsonBody analysis)).
Proof.
  cbv zeta.
  split; [reflexivity|]. split; [reflexivity|].
  destruct (@analyze_requests_the_full_feature_set plain_engine
              (resolving (VObject [("categories", VArray []);
                                   ("requestId", VString "r-1")]))
              None
              (VObject [("imageUrl", VString "https://example.com/cat.png")])
              (VString "https://example.com/cat.png") eq_refl eq_refl)
    as [Hcalls Hresponse].
  split; [exact Hcalls|]. split; [reflexivity|].
  exact (Hresponse _ eq_refl).
Defined.

(** C6.  For an [imageUrl] that passes the validation,
    [/api/vision/objects], [/api/vision/describe] and [/api/vision/text]
    each make exactly one call, [detectObjects], [describeImage] and
    [recognizePrintedText] with [false] as its first argument, on that
    [imageUrl]; when the call resolves, the endpoint answers 200 with the
    value it resolved with. *)
Theorem dedicated_operations_pass_their_result {engine : Engine}
    (visionProcessor : client) (API_BASE_URL : option string)
    (body imageUrl detected described recognized : value) :
  Get body "imageUrl" = Normal imageUrl ->
  passes_validation imageUrl = true ->
  visionProcessor (detectObjects imageUrl) = Resolved detected ->
  visionProcessor (describeImage imageUrl) = Resolved described ->
  visionProcessor (recognizePrintedText false imageUrl) = Resolved recognized ->
  (calls (post visionProcessor API_BASE_URL objects body) = [detectObjects imageUrl]
   /\ response (post visionProcessor API_BASE_URL objects body)
      = (200%Z, Some (JsonBody detected)))
  /\ (calls (post visionProcessor API_BASE_URL describe body) = [describeImage imageUrl]
      /\ response (post visionProcessor API_BASE_URL describe body)
         = (200%Z, Some (JsonBody described)))
  /\ (calls (post visionProcessor API_BASE_URL text body)
      = [recognizePrintedText false imageUrl]
      /\ response (post visionProcessor API_BASE_URL text body)
         = (200%Z, Some (JsonBody recognized))).
Proof.
  intros Hfield Hvalid Hobjects Hdescribe Htext.
  split; [|split].
  - rewrite (post_resolved visionProcessor API_BASE_URL objects body imageUrl
               detected detected Hfield Hvalid Hobjects eq_refl).
    split; reflexivity.
  - rewrite (post_resolved visionProcessor API_BASE_URL describe body imageUrl
               described described Hfield Hvalid Hdescribe eq_refl).
    split; reflexivity.
  - rewrite (post_resolved visionProcessor API_BASE_URL text body imageUrl
               recognized recognized Hfield Hvalid Htext eq_refl).
    split; reflexivity.
Qed.

Lemma dedicated_operations_pass_their_result_witness :
  let body := VObject [("imageUrl", VString "https://example.com/cat.png")] in
  let url := VString "https://example.com/cat.png" in
  let result := VObject [("objects", VArray []); ("requestId", VString "r-1")] in
  Get body "imageUrl" = Normal url
  /\ @passes_validation plain_engine url = true
  /\ resolving result (detectObjects url) = Resolved result
  /\ resolving result (describeImage url) = Resolved result
  /\ resolving result (recognizePrintedText false url) = Resolved result
  /\ (calls (@post plain_engine (resolving result) None objects body)
      = [detectObjects url]
      /\ response (@post plain_engine (resolving result) None objects body)
         = (200%Z, Some (JsonBody result)))
  /\ (calls (@post plain_engine (resolving result) None describe body)
      = [describeImage url]
      /\ response (@post plain_engine (resolving result) None describe body)
         = (200%Z, Some (JsonBody result)))
  /\ (calls (@post plain_engine (resolving result) None text body)
      = [recognizePrintedText false url]
      /\ response (@post plain_engine (resolving result) None text body)
         = (200%Z, Some (JsonBody result))).
Proof.
  cbv zeta.
  split; [reflexivity|]. split; [reflexivity|]. split; [reflexivity|].
  split; [reflexivity|]. split; [reflexivity|].
  apply (@dedicated_operations_pass_their_result plain_engine
           (resolving (VObject [("objects", VArray []);
                                ("requestId", VString "r-1")]))
           None
           (VObject [("imageUrl", VString "https://example.com/cat.png")])
           (VString "https://example.com/cat.png")); reflexivity.
Defined.

(** ** Failed calls *)

(** C5.  For an [imageUrl] that passes the validation, when the call an
    endpoint makes rejects with a value whose [message] reads as
    [message] ([undefined] when it has none), the endpoint answers 500
    with the JSON body [{ error: message }] when [message] is truthy, and
    with the fallback text in its place otherwise. *)
Theorem collaborator_failure_is_500 {engine : Engine}
    (visionProcessor : client) (API_BASE_URL : option string)
    (ep : endpoint) (body imageUrl reason message : value) :
  Get body "imageUrl" = Normal imageUrl ->
  passes_validation imageUrl = true ->
  visionProcessor (call_of ep imageUrl) = Rejected reason ->
  Get reason "message" = Normal message ->
  response (post visionProcessor API_BASE_URL ep body)
  = (500%Z,
     Some (JsonBody (VObject
       [("error",
         if ToBoolean message then message
         else VString "An error occurred during image analysis")]))).
Proof.
  intros Hfield Hvalid Hcall Hmessage.
  rewrite (post_rejected visionProcessor API_BASE_URL ep body imageUrl reason
             message Hfield Hvalid Hcall Hmessage).
  reflexivity.
Qed.

Lemma collaborator_failure_is_500_witness :
  let body := VObject [("imageUrl", VString "https://example.com/cat.png")] in
  let url := VString "https://example.com/cat.png" in
  let reason := VError "RestError" "Access denied due to invalid subscription key." in
  Get body "imageUrl" = Normal url
  /\ @passes_validation plain_engine url = true
  /\ rejecting reason (call_of describe url) = Rejected reason
  /\ Get reason "message"
     = Normal (VString "Access denied due to invalid subscription key.")
  /\ response (@post plain_engine (rejecting reason) None describe body)
     = (500%Z,
        Some (JsonBody (VObject
          [("error", VString "Access denied due to invalid subscription key.")]))).
Proof.
  cbv zeta.
  split; [reflexivity|]. split; [reflexivity|]. split; [reflexivity|].
  split; [reflexivity|].
  apply (@collaborator_failure_is_500 plain_engine
           (rejecting (VError "RestError"
                         "Access denied due to invalid subscription key."))
           None describe
           (VObject [("imageUrl", VString "https://example.com/cat.png")])
           (VString "https://example.com/cat.png")
           (VError "RestError" "Access denied due to invalid subscription key.")
           (VString "Access denied due to invalid subscription key."));
    reflexivity.
Defined.

(** ** The root route *)



(** What happens there: the module throws at line 12. *)
Example unconfigured_module_throws :
  exists e, @server plain_engine (fun _ _ => resolving VNull) unconfigured
              GET "/" (VObject []) = Throw e.
Proof. eexists. reflexivity. Qed.



(** * Further properties of app.js *)

(** ** More on the validator *)

Lemma parse_object_string {engine : Engine} :
  URL.basic_URL_parse "[object Object]" = None.
Proof. reflexivity. Qed.

Lemma parse_true {engine : Engine} : URL.basic_URL_parse "true" = None.
Proof. reflexivity. Qed.

(** [new URL] on an object always throws: in the conversion to a string,
    or in the parser on ["[object Object]"]. *)
Lemma new_URL_object {engine : Engine} (fields : list (string * value)) :
  exists e, new_URL (VObject fields) = Throw e.
Proof.
  unfold new_URL. simpl. destruct (lookup "toString" fields); eexists; reflexivity.
Qed.

Lemma passes_validation_false {engine : Engine} (v : value) :
  passes_validation v = false ->
  ToBoolean v = false \/ (ToBoolean v = true /\ exists e, new_URL v = Throw e).
Proof.
  intro H. destruct (validation_cases v) as [Hf|[Hi|Hp]];
    [left; exact Hf | right; exact Hi | congruence].
Qed.

(** X1.  Every falsy [imageUrl] is answered as a missing one: with
    [null], [false], [0], [NaN] or the empty string in the field, as with
    no field at all, each endpoint answers 400 with
    [{ error: 'Image URL is required' }], makes no call and logs
    nothing. *)
Theorem falsy_imageUrl_is_required {engine : Engine}
    (visionProcessor : client) (API_BASE_URL : option string)
    (ep : endpoint) (body imageUrl : value) :
  Get body "imageUrl" = Normal imageUrl ->
  ToBoolean imageUrl = false ->
  let w := post visionProcessor API_BASE_URL ep body in
  response w
  = (400%Z, Some (JsonBody (VObject [("error", VString "Image URL is required")])))
  /\ calls w = [] /\ console w = [].
Proof.
  intros Hfield Hfalsy; cbv zeta.
  rewrite (post_required visionProcessor API_BASE_URL ep body _ Hfield Hfalsy).
  repeat split.
Qed.

Lemma falsy_imageUrl_is_required_witness :
  let body := VObject [("imageUrl", VNumber PrimFloat.zero)] in
  Get body "imageUrl" = Normal (VNumber PrimFloat.zero)
  /\ ToBoolean (VNumber PrimFloat.zero) = false
  /\ response (@post plain_engine (resolving VNull) None objects body)
     = (400%Z, Some (JsonBody (VObject [("error", VString "Image URL is required")])))
  /\ calls (@post plain_engine (resolving VNull) None objects body) = []
  /\ console (@post plain_engine (resolving VNull) None objects body) = [].
Proof.
  cbv zeta. split; [reflexivity|]. split; [reflexivity|].
  apply (@falsy_imageUrl_is_required plain_engine (resolving VNull) None objects
           (VObject [("imageUrl", VNumber PrimFloat.zero)])
           (VNumber PrimFloat.zero)); reflexivity.
Defined.

(** X2.  A non-empty string with no [:] in it has no scheme: each
    endpoint answers it 400 with [{ error: 'Invalid URL format' }] and
    makes no call.  An address written without its scheme, as
    [example.com/cat.png], is such a string. *)
Theorem string_without_colon_is_invalid {engine : Engine}
    (visionProcessor : client) (API_BASE_URL : option string)
    (ep : endpoint) (body : value) (s : string) :
  Get body "imageUrl" = Normal (VString s) ->
  s <> "" ->
  ~ In ":"%char (list_ascii_of_string s) ->
  let w := post visionProcessor API_BASE_URL ep body in
  response w
  = (400%Z, Some (JsonBody (VObject [("error", VString "Invalid URL format")])))
  /\ calls w = [].
Proof.
  intros Hfield Hs Hcolon; cbv zeta.
  rewrite (post_invalid visionProcessor API_BASE_URL ep body _ _ Hfield
             (ToBoolean_string s Hs)
             (new_URL_string s (URL_needs_a_scheme s Hcolon))).
  split; reflexivity.
Qed.

Lemma string_without_colon_is_invalid_witness :
  let body := VObject [("imageUrl", VString "example.com/cat.png")] in
  Get body "imageUrl" = Normal (VString "example.com/cat.png")
  /\ "example.com/cat.png" <> ""
  /\ ~ In ":"%char (list_ascii_of_string "example.com/cat.png")
  /\ response (@post plain_engine (resolving VNull) None analyze body)
     = (400%Z, Some (JsonBody (VObject [("error", VString "Invalid URL format")])))
  /\ calls (@post plain_engine (resolving VNull) None analyze body) = [].
Proof.
  cbv zeta.
  assert (Hcolon : ~ In ":"%char (list_ascii_of_string "example.com/cat.png")).
  { simpl. intro H. repeat (destruct H as [H|H]; [discriminate H|]). exact H. }
  split; [reflexivity|]. split; [discriminate|]. split; [exact Hcolon|].
  apply (@string_without_colon_is_invalid plain_engine (resolving VNull) None analyze
           (VObject [("imageUrl", VString "example.com/cat.png")])
           "example.com/cat.png"); [reflexivity | discriminate | exact Hcolon].
Defined.

(** X3.  An [imageUrl] that is an object, whatever its fields, or the
    boolean [true], never passes: each endpoint answers 400 with
    [{ error: 'Invalid URL format' }] and makes no call. *)
Theorem object_imageUrl_is_invalid {engine : Engine}
    (visionProcessor : client) (API_BASE_URL : option string)
    (ep : endpoint) (body imageUrl : value) :
  Get body "imageUrl" = Normal imageUrl ->
  imageUrl = VBool true \/ (exists fields, imageUrl = VObject fields) ->
  let w := post visionProcessor API_BASE_URL ep body in
  response w
  = (400%Z, Some (JsonBody (VObject [("error", VString "Invalid URL format")])))
  /\ calls w = [].
Proof.
  intros Hfield Hkind; cbv zeta.
  assert (Hthrow : ToBoolean imageUrl = true /\ exists e, new_URL imageUrl = Throw e).
  { destruct Hkind as [->|[fields ->]].
    - split; [reflexivity|]. eexists. reflexivity.
    - split; [reflexivity|]. apply new_URL_object. }
  destruct Hthrow as [Htruthy [e He]].
  rewrite (post_invalid visionProcessor API_BASE_URL ep body _ e Hfield Htruthy He).
  split; reflexivity.
Qed.

Lemma object_imageUrl_is_invalid_witness :
  let imageUrl := VObject [("href", VString "https://example.com/cat.png")] in
  let body := VObject [("imageUrl", imageUrl)] in
  Get body "imageUrl" = Normal imageUrl
  /\ (imageUrl = VBool true \/ (exists fields, imageUrl = VObject fields))
  /\ response (@post plain_engine (resolving VNull) None colors body)
     = (400%Z, Some (JsonBody (VObject [("error", VString "Invalid URL format")])))
  /\ calls (@post plain_engine (resolving VNull) None colors body) = [].
Proof.
  cbv zeta. split; [reflexivity|].
  split; [right; eexists; reflexivity|].
  apply (@object_imageUrl_is_invalid plain_engine (resolving VNull) None colors
           (VObject [("imageUrl",
                      VObject [("href", VString "https://example.com/cat.png")])])
           (VObject [("href", VString "https://example.com/cat.png")]));
    [reflexivity | right; eexists; reflexivity].
Defined.

(** X4.  An array passes the validation as its string form does: with a
    one-element array around a string that passes, the request passes
    too, and what the vision client is handed is the array, not the
    string that was checked. *)
Theorem array_imageUrl_is_forwarded_as_array {engine : Engine}
    (visionProcessor : client) (API_BASE_URL : option string)
    (ep : endpoint) (body : value) (s : string) :
  Get body "imageUrl" = Normal (VArray [VString s]) ->
  passes_validation (VString s) = true ->
  passes_validation (VArray [VString s]) = true
  /\ calls (post visionProcessor API_BASE_URL ep body)
     = [call_of ep (VArray [VString s])].
Proof.
  intros Hfield Hvalid.
  assert (Harray : passes_validation (VArray [VString s]) = true).
  { unfold passes_validation, new_URL in *. simpl in *.
    apply andb_prop in Hvalid as [_ Hparse]. exact Hparse. }
  split; [exact Harray|].
  exact (post_calls visionProcessor API_BASE_URL ep body _ Hfield Harray).
Qed.

Lemma array_imageUrl_is_forwarded_as_array_witness :
  let imageUrl := VArray [VString "https://example.com/cat.png"] in
  let body := VObject [("imageUrl", imageUrl)] in
  Get body "imageUrl" = Normal imageUrl
  /\ @passes_validation plain_engine (VString "https://example.com/cat.png") = true
  /\ @passes_validation plain_engine imageUrl = true
  /\ calls (@post plain_engine (resolving VNull) None describe body)
     = [describeImage imageUrl].
Proof.
  cbv zeta. split; [reflexivity|]. split; [reflexivity|].
  apply (@array_imageUrl_is_forwarded_as_array plain_engine (resolving VNull) None
           describe
           (VObject [("imageUrl", VArray [VString "https://example.com/cat.png"])])
           "https://example.com/cat.png"); reflexivity.
Defined.

(** X5.  When the validation fails, [next] is never called: the
    middleware does the same whatever the rest of the stack is, in any
    state of the request. *)
Theorem failed_validation_never_calls_next {engine : Engine}
    (w : world) (imageUrl : value) (next next' : M unit) :
  Destructure (req_body w) "imageUrl" = Normal imageUrl ->
  passes_validation imageUrl = false ->
  checkImageUrl next w = checkImageUrl next' w.
Proof.
  intros Hfield Hfails.
  unfold checkImageUrl, bind, req_dot_body, eval. rewrite Hfield.
  destruct (passes_validation_false imageUrl Hfails) as [Hf|[Ht [e He]]].
  - rewrite Hf. reflexivity.
  - rewrite Ht. simpl. unfold try_catch. rewrite He. reflexivity.
Qed.

Lemma failed_validation_never_calls_next_witness :
  let w := incoming (VObject [("imageUrl", VString "://bad")]) in
  Destructure (req_body w) "imageUrl" = Normal (VString "://bad")
  /\ @passes_validation plain_engine (VString "://bad") = false
  /\ @checkImageUrl plain_engine (analyze_handler (resolving VNull)) w
     = @checkImageUrl plain_engine (ret tt) w.
Proof.
  cbv zeta. split; [reflexivity|]. split; [reflexivity|].
  apply (@failed_validation_never_calls_next plain_engine
           (incoming (VObject [("imageUrl", VString "://bad")]))
           (VString "://bad")); reflexivity.
Defined.

(** ** Every way a request can end *)

Lemma Get_readable (err : value) (k : string) :
  is_nullish err = false -> exists x, Get err k = Normal x.
Proof.
  destruct err; simpl; try discriminate; intros _; try (eexists; reflexivity).
  - destruct (lookup k fields); eexists; reflexivity.
  - destruct (String.eqb k "message"); eexists; reflexivity.
Qed.

Lemma Get_throws_TypeError (v : value) (k : string) (e : value) :
  Get v k = Throw e -> is_nullish e = false.
Proof.
  destruct v; simpl; try discriminate.
  - intro H; inversion H; reflexivity.
  - intro H; inversion H; reflexivity.
  - destruct (lookup k fields); discriminate.
  - destruct (String.eqb k "message"); discriminate.
Qed.

Lemma projection_throws_TypeError (ep : endpoint) (analysis e : value) :
  projection_of ep analysis = Throw e -> is_nullish e = false.
Proof.
  destruct ep; simpl; try discriminate; apply Get_throws_TypeError.
Qed.

Lemma projection_settles (ep : endpoint) (analysis : value) :
  projection_of ep analysis <> Pending.
Proof.
  destruct ep; simpl; try discriminate;
    destruct analysis; simpl; try discriminate;
    match goal with
    | |- context [lookup ?k ?f] => destruct (lookup k f); discriminate
    | |- context [String.eqb ?a ?b] => destruct (String.eqb a b); discriminate
    end.
Qed.

Section Outcomes.
Context {engine : Engine}.
Variable visionProcessor : client.
Variable API_BASE_URL : option string.
Variables (ep : endpoint) (body imageUrl : value).
Hypothesis Hfield : Get body "imageUrl" = Normal imageUrl.
Hypothesis Hvalid : passes_validation imageUrl = true.

(** The request at the moment the call has been made, and after the
    first two statements of [processError]. *)
Let called : world := add_call (call_of ep imageUrl) (incoming body).
Let logged (err : value) : world :=
  set_statusCode 500 (add_console [VString "Error:"; err] called).

(** The [catch] block of a handler, entered with [err]. *)
Lemma post_caught (err : value) :
  async (try_catch (eval (Throw err)) processError) called
  = (Normal tt,
     match Get err "message" with
     | Normal message =>
         set_sent
           (JsonBody (error_body
              (js_or message (VString "An error occurred during image analysis"))))
           (logged err)
     | Throw e => add_unhandled e (logged err)
     | Pending => logged err
     end).
Proof.
  unfold async, try_catch, eval, processError, bind, console_error, res_status,
    res_json.
  destruct (Get err "message"); reflexivity.
Qed.

(** A request that passes the validation ends in one of four ways. *)
Lemma post_outcomes :
  let w := post visionProcessor API_BASE_URL ep body in
  (exists analysis shaped,
      visionProcessor (call_of ep imageUrl) = Resolved analysis
      /\ projection_of ep analysis = Normal shaped
      /\ w = set_sent (JsonBody shaped) called)
  \/ (exists err message,
        (visionProcessor (call_of ep imageUrl) = Rejected err
         \/ exists analysis,
              visionProcessor (call_of ep imageUrl) = Resolved analysis
              /\ projection_of ep analysis = Throw err)
        /\ Get err "message" = Normal message
        /\ w = set_sent
                 (JsonBody (error_body
                    (js_or message (VString "An error occurred during image analysis"))))
                 (logged err))
  \/ (exists err e,
        visionProcessor (call_of ep imageUrl) = Rejected err
        /\ is_nullish err = true
        /\ w = add_unhandled e (logged err))
  \/ (visionProcessor (call_of ep imageUrl) = Unsettled /\ w = called).
Proof.
  cbv zeta.
  rewrite (post_valid visionProcessor API_BASE_URL ep body imageUrl Hfield Hvalid),
    (handler_run visionProcessor ep body imageUrl Hfield).
  fold called.
  destruct (visionProcessor (call_of ep imageUrl)) as [analysis|err|] eqn:Hcall.
  - destruct (projection_of ep analysis) as [shaped|err|] eqn:Hshape.
    + left. exists analysis, shaped.
      split; [reflexivity|]. split; [exact Hshape|].
      reflexivity.
    + right; left.
      destruct (Get_readable err "message" (projection_throws_TypeError _ _ _ Hshape))
        as [message Hmessage].
      exists err, message.
      split; [right; exists analysis; split; [reflexivity|exact Hshape]|].
      split; [exact Hmessage|].
      replace (async _ called)
        with (async (try_catch (eval (Throw err)) processError) called).
      * rewrite post_caught, Hmessage. reflexivity.
      * reflexivity.
    + exfalso. exact (projection_settles _ _ Hshape).
  - rewrite post_caught.
    destruct (Get err "message") as [message|e|] eqn:Hmessage.
    + right; left. exists err, message.
      split; [left; reflexivity|]. split; [exact Hmessage|reflexivity].
    + right; right; left. exists err, e.
      split; [reflexivity|]. split; [|reflexivity].
      destruct err; simpl in Hmessage |- *; try reflexivity; try discriminate.
      destruct (lookup "message" fields); discriminate.
    + exfalso. destruct err; simpl in Hmessage; try discriminate.
      destruct (lookup "message" fields); discriminate.
  - right; right; right. split; reflexivity.
Qed.

End Outcomes.

(** X6.  The calls a request makes are decided by the validation alone:
    none when it fails, and exactly one, the endpoint's own, when it
    passes, whether that call resolves, rejects or never settles.  No
    call is repeated and no second operation is tried. *)
Theorem calls_follow_validation {engine : Engine}
    (visionProcessor : client) (API_BASE_URL : option string)
    (ep : endpoint) (body imageUrl : value) :
  Get body "imageUrl" = Normal imageUrl ->
  calls (post visionProcessor API_BASE_URL ep body)
  = if passes_validation imageUrl then [call_of ep imageUrl] else [].
Proof.
  intro Hfield. destruct (passes_validation imageUrl) eqn:Hvalid.
  - exact (post_calls visionProcessor API_BASE_URL ep body imageUrl Hfield Hvalid).
  - destruct (passes_validation_false imageUrl Hvalid) as [Hf|[Ht [e He]]].
    + rewrite (post_required visionProcessor API_BASE_URL ep body _ Hfield Hf).
      reflexivity.
    + rewrite (post_invalid visionProcessor API_BASE_URL ep body _ e Hfield Ht He).
      reflexivity.
Qed.

Lemma calls_follow_validation_witness :
  let url := VString "https://example.com/cat.png" in
  let body := VObject [("imageUrl", url)] in
  let failing : client := rejecting (VError "RestError" "Too Many Requests") in
  Get body "imageUrl" = Normal url
  /\ calls (@post plain_engine failing None text body)
     = (if @passes_validation plain_engine url
        then [recognizePrintedText false url] else [])
  /\ calls (@post plain_engine failing None text body)
     = [recognizePrintedText false url].
Proof.
  cbv zeta. split; [reflexivity|]. split; [|reflexivity].
  apply (@calls_follow_validation plain_engine
           (rejecting (VError "RestError" "Too Many Requests")) None text
           (VObject [("imageUrl", VString "https://example.com/cat.png")])
           (VString "https://example.com/cat.png")).
  reflexivity.
Defined.

(** X7.  The status is 400 exactly when the validation fails.  Although
    [next()] is called inside the [try] block of the middleware, nothing
    that goes wrong in a handler is answered as an invalid URL: a request
    that passes has status 200 or 500. *)
Theorem status_400_iff_validation_fails {engine : Engine}
    (visionProcessor : client) (API_BASE_URL : option string)
    (ep : endpoint) (body imageUrl : value) :
  Get body "imageUrl" = Normal imageUrl ->
  (statusCode (post visionProcessor API_BASE_URL ep body) = 400%Z
   <-> passes_validation imageUrl = false)
  /\ (passes_validation imageUrl = true ->
      statusCode (post visionProcessor API_BASE_URL ep body) = 200%Z
      \/ statusCode (post visionProcessor API_BASE_URL ep body) = 500%Z).
Proof.
  intro Hfield.
  assert (Hpass : passes_validation imageUrl = true ->
            statusCode (post visionProcessor API_BASE_URL ep body) = 200%Z
            \/ statusCode (post visionProcessor API_BASE_URL ep body) = 500%Z).
  { intro Hvalid.
    destruct (post_outcomes visionProcessor API_BASE_URL ep body imageUrl Hfield Hvalid)
      as [(a & x & _ & _ & ->)|[(err & m & _ & _ & ->)|[(err & e & _ & _ & ->)|[_ ->]]]];
      [left|right|right|left]; reflexivity. }
  split; [split|exact Hpass].
  - intro Hstatus. destruct (passes_validation imageUrl); [|reflexivity].
    destruct (Hpass eq_refl) as [H|H]; rewrite H in Hstatus; discriminate Hstatus.
  - intro Hfails.
    destruct (passes_validation_false imageUrl Hfails) as [Hf|[Ht [e He]]].
    + rewrite (post_required visionProcessor API_BASE_URL ep body _ Hfield Hf).
      reflexivity.
    + rewrite (post_invalid visionProcessor API_BASE_URL ep body _ e Hfield Ht He).
      reflexivity.
Qed.

Lemma status_400_iff_validation_fails_witness :
  let url := VString "https://example.com/cat.png" in
  let body := VObject [("imageUrl", url)] in
  let failing : client := rejecting (VError "TypeError" "Invalid URL") in
  Get body "imageUrl" = Normal url
  /\ @passes_validation plain_engine url = true
  /\ statusCode (@post plain_engine failing None tags body) = 500%Z
  /\ (statusCode (@post plain_engine failing None tags body) = 400%Z
      <-> @passes_validation plain_engine url = false).
Proof.
  cbv zeta. split; [reflexivity|]. split; [reflexivity|]. split; [reflexivity|].
  exact (proj1 (@status_400_iff_validation_fails plain_engine
                  (rejecting (VError "TypeError" "Invalid URL")) None tags
                  (VObject [("imageUrl", VString "https://example.com/cat.png")])
                  (VString "https://example.com/cat.png") eq_refl)).
Defined.

(** X8.  Every request whose call settles is answered, once, in JSON:
    if the vision client settles every call and never rejects with
    [undefined] or [null], then whatever the body holds under
    [imageUrl] the response is sent with status 200, 400 or 500 and a
    JSON body, and no rejection is left unhandled. *)
Theorem settled_request_is_answered {engine : Engine}
    (visionProcessor : client) (API_BASE_URL : option string)
    (ep : endpoint) (body imageUrl : value) :
  Get body "imageUrl" = Normal imageUrl ->
  (forall call, visionProcessor call <> Unsettled) ->
  (forall call reason,
      visionProcessor call = Rejected reason -> is_nullish reason = false) ->
  let w := post visionProcessor API_BASE_URL ep body in
  (exists payload, sent w = Some (JsonBody payload))
  /\ (statusCode w = 200%Z \/ statusCode w = 400%Z \/ statusCode w = 500%Z)
  /\ unhandled w = [].
Proof.
  intros Hfield Hsettles Hreason; cbv zeta.
  destruct (validation_cases imageUrl) as [Hf|[[Ht [e He]]|Hvalid]].
  - rewrite (post_required visionProcessor API_BASE_URL ep body _ Hfield Hf).
    split; [eexists; reflexivity|]. split; [right; left|]; reflexivity.
  - rewrite (post_invalid visionProcessor API_BASE_URL ep body _ e Hfield Ht He).
    split; [eexists; reflexivity|]. split; [right; left|]; reflexivity.
  - destruct (post_outcomes visionProcessor API_BASE_URL ep body imageUrl Hfield Hvalid)
      as [(a & x & _ & _ & ->)
         |[(err & m & _ & _ & ->)
          |[(err & e & Hcall & Hnullish & _)|[Hcall _]]]].
    + split; [eexists; reflexivity|]. split; [left|]; reflexivity.
    + split; [eexists; reflexivity|]. split; [right; right|]; reflexivity.
    + rewrite (Hreason _ _ Hcall) in Hnullish. discriminate Hnullish.
    + exfalso. exact (Hsettles _ Hcall).
Qed.

Lemma settled_request_is_answered_witness :
  let body := VObject [("imageUrl", VString "https://example.com/cat.png")] in
  let vision : client := resolving VUndefined in
  Get body "imageUrl" = Normal (VString "https://example.com/cat.png")
  /\ (forall call, vision call <> Unsettled)
  /\ (forall call reason, vision call = Rejected reason -> is_nullish reason = false)
  /\ (exists payload,
        sent (@post plain_engine vision None faces body) = Some (JsonBody payload))
  /\ (statusCode (@post plain_engine vision None faces body) = 200%Z
      \/ statusCode (@post plain_engine vision None faces body) = 400%Z
      \/ statusCode (@post plain_engine vision None faces body) = 500%Z)
  /\ unhandled (@post plain_engine vision None faces body) = [].
Proof.
  cbv zeta.
  split; [reflexivity|]. split; [discriminate|]. split; [discriminate|].
  apply (@settled_request_is_answered plain_engine (resolving VUndefined) None faces
           (VObject [("imageUrl", VString "https://example.com/cat.png")])
           (VString "https://example.com/cat.png"));
    [reflexivity | discriminate | discriminate].
Defined.

(** X9.  No handler sets a time limit: when the call never settles, the
    request is never answered.  One call has been made, nothing is sent,
    nothing is logged and nothing is rejected. *)
Theorem unsettled_call_is_never_answered {engine : Engine}
    (visionProcessor : client) (API_BASE_URL : option string)
    (ep : endpoint) (body imageUrl : value) :
  Get body "imageUrl" = Normal imageUrl ->
  passes_validation imageUrl = true ->
  visionProcessor (call_of ep imageUrl) = Unsettled ->
  let w := post visionProcessor API_BASE_URL ep body in
  sent w = None /\ calls w = [call_of ep imageUrl]
  /\ console w = [] /\ unhandled w = [].
Proof.
  intros Hfield Hvalid Hcall; cbv zeta.
  destruct (post_outcomes visionProcessor API_BASE_URL ep body imageUrl Hfield Hvalid)
    as [(a & x & H & _)|[(err & m & [H|(a & H & _)] & _)|[(err & e & H & _)|[_ ->]]]];
    try congruence.
  repeat split.
Qed.

Lemma unsettled_call_is_never_answered_witness :
  let url := VString "https://example.com/cat.png" in
  let body := VObject [("imageUrl", url)] in
  let silent : client := fun _ => Unsettled in
  Get body "imageUrl" = Normal url
  /\ @passes_validation plain_engine url = true
  /\ silent (call_of objects url) = Unsettled
  /\ sent (@post plain_engine silent None objects body) = None
  /\ calls (@post plain_engine silent None objects body) = [detectObjects url]
  /\ console (@post plain_engine silent None objects body) = []
  /\ unhandled (@post plain_engine silent None objects body) = [].
Proof.
  cbv zeta. split; [reflexivity|]. split; [reflexivity|]. split; [reflexivity|].
  apply (@unsettled_call_is_never_answered plain_engine (fun _ => Unsettled) None
           objects (VObject [("imageUrl", VString "https://example.com/cat.png")])
           (VString "https://example.com/cat.png")); reflexivity.
Defined.

(** X10.  A call that resolves with [undefined] or [null] is a failure
    for the three endpoints that project a field and a success for the
    four that do not: [tags], [faces] and [colors] answer 500 with the
    message of the [TypeError] the projection throws, and log it;
    [analyze], [objects], [describe] and [text] answer 200 with that
    value as the body. *)
Theorem nullish_result_by_endpoint {engine : Engine}
    (visionProcessor : client) (API_BASE_URL : option string)
    (ep : endpoint) (body imageUrl analysis : value) :
  Get body "imageUrl" = Normal imageUrl ->
  passes_validation imageUrl = true ->
  visionProcessor (call_of ep imageUrl) = Resolved analysis ->
  is_nullish analysis = true ->
  let w := post visionProcessor API_BASE_URL ep body in
  match ep with
  | tags | faces | colors =>
      exists message : string,
        response w
        = (500%Z, Some (JsonBody (VObject [("error", VString message)])))
        /\ message <> ""
        /\ console w = [[VString "Error:"; VError "TypeError" message]]
  | analyze | objects | describe | text =>
      response w = (200%Z, Some (JsonBody analysis)) /\ console w = []
  end.
Proof.
  intros Hfield Hvalid Hcall Hnullish; cbv zeta.
  rewrite (post_valid visionProcessor API_BASE_URL ep body imageUrl Hfield Hvalid),
    (handler_run visionProcessor ep body imageUrl Hfield), Hcall.
  destruct analysis; try discriminate Hnullish;
    destruct ep; try (split; reflexivity);
    eexists; (split; [reflexivity|split; [discriminate|reflexivity]]).
Qed.

Lemma nullish_result_by_endpoint_witness :
  let url := VString "https://example.com/cat.png" in
  let body := VObject [("imageUrl", url)] in
  Get body "imageUrl" = Normal url
  /\ @passes_validation plain_engine url = true
  /\ resolving VUndefined (call_of tags url) = Resolved VUndefined
  /\ is_nullish VUndefined = true
  /\ exists message : string,
       response (@post plain_engine (resolving VUndefined) None tags body)
       = (500%Z, Some (JsonBody (VObject [("error", VString message)])))
       /\ message <> ""
       /\ console (@post plain_engine (resolving VUndefined) None tags body)
          = [[VString "Error:"; VError "TypeError" message]].
Proof.
  cbv zeta. split; [reflexivity|]. split; [reflexivity|]. split; [reflexivity|].
  split; [reflexivity|].
  exact (@nullish_result_by_endpoint plain_engine (resolving VUndefined) None tags
           (VObject [("imageUrl", VString "https://example.com/cat.png")])
           (VString "https://example.com/cat.png") VUndefined
           eq_refl eq_refl eq_refl eq_refl).
Defined.

(** X11.  Every rejected call is logged once, as ['Error:'] followed by
    the rejection itself, and the status is set to 500, before the
    message of the rejection is read: this holds even for a rejection
    whose message cannot be read. *)
Theorem rejection_is_logged_once {engine : Engine}
    (visionProcessor : client) (API_BASE_URL : option string)
    (ep : endpoint) (body imageUrl reason : value) :
  Get body "imageUrl" = Normal imageUrl ->
  passes_validation imageUrl = true ->
  visionProcessor (call_of ep imageUrl) = Rejected reason ->
  let w := post visionProcessor API_BASE_URL ep body in
  console w = [[VString "Error:"; reason]] /\ statusCode w = 500%Z.
Proof.
  intros Hfield Hvalid Hcall; cbv zeta.
  destruct (post_outcomes visionProcessor API_BASE_URL ep body imageUrl Hfield Hvalid)
    as [(a & x & H & _)
       |[(err & m & [H|(a & H & _)] & _ & ->)
        |[(err & e & H & _ & ->)|[H _]]]];
    try congruence.
  - assert (err = reason) by congruence. subst err. split; reflexivity.
  - assert (err = reason) by congruence. subst err. split; reflexivity.
Qed.

Lemma rejection_is_logged_once_witness :
  let url := VString "https://example.com/cat.png" in
  let body := VObject [("imageUrl", url)] in
  let reason := VString "socket hang up" in
  Get body "imageUrl" = Normal url
  /\ @passes_validation plain_engine url = true
  /\ rejecting reason (call_of colors url) = Rejected reason
  /\ console (@post plain_engine (rejecting reason) None colors body)
     = [[VString "Error:"; reason]]
  /\ statusCode (@post plain_engine (rejecting reason) None colors body) = 500%Z.
Proof.
  cbv zeta. split; [reflexivity|]. split; [reflexivity|]. split; [reflexivity|].
  apply (@rejection_is_logged_once plain_engine (rejecting (VString "socket hang up"))
           None colors
           (VObject [("imageUrl", VString "https://example.com/cat.png")])
           (VString "https://example.com/cat.png") (VString "socket hang up"));
    reflexivity.
Defined.

(** X12.  [processError] reads [err.message] with no guard.  Given
    [undefined] or [null] it logs, sets the status to 500 and then
    throws a [TypeError], sending nothing.  So when a call rejects with
    [undefined] or [null], the status is 500 and no statement of app.js
    answers the request: the JSON body [{ error: ... }] is never
    sent. *)
Theorem processError_throws_on_nullish {engine : Engine}
    (visionProcessor : client) (API_BASE_URL : option string)
    (ep : endpoint) (body imageUrl reason : value) :
  Get body "imageUrl" = Normal imageUrl ->
  passes_validation imageUrl = true ->
  visionProcessor (call_of ep imageUrl) = Rejected reason ->
  is_nullish reason = true ->
  (forall w : world,
      exists message : string,
        processError reason w
        = (Throw (VError "TypeError" message),
           set_statusCode 500 (add_console [VString "Error:"; reason] w)))
  /\ statusCode (post visionProcessor API_BASE_URL ep body) = 500%Z
  /\ forall payload,
       sent (post visionProcessor API_BASE_URL ep body) <> Some (JsonBody payload).
Proof.
  intros Hfield Hvalid Hcall Hnullish.
  split.
  - intro w. destruct reason; try discriminate Hnullish; eexists; reflexivity.
  - rewrite (post_valid visionProcessor API_BASE_URL ep body imageUrl Hfield Hvalid),
      (handler_run visionProcessor ep body imageUrl Hfield), Hcall.
    destruct reason; try discriminate Hnullish;
      (split; [reflexivity|intros payload H; discriminate H]).
Qed.

Lemma processError_throws_on_nullish_witness :
  let url := VString "https://example.com/cat.png" in
  let body := VObject [("imageUrl", url)] in
  Get body "imageUrl" = Normal url
  /\ @passes_validation plain_engine url = true
  /\ rejecting VNull (call_of analyze url) = Rejected VNull
  /\ is_nullish VNull = true
  /\ (forall w : world,
        exists message : string,
          processError VNull w
          = (Throw (VError "TypeError" message),
             set_statusCode 500 (add_console [VString "Error:"; VNull] w)))
  /\ statusCode (@post plain_engine (rejecting VNull) None analyze body) = 500%Z
  /\ forall payload,
       sent (@post plain_engine (rejecting VNull) None analyze body)
       <> Some (JsonBody payload).
Proof.
  cbv zeta. split; [reflexivity|]. split; [reflexivity|]. split; [reflexivity|].
  split; [reflexivity|].
  apply (@processError_throws_on_nullish plain_engine (rejecting VNull) None
           analyze (VObject [("imageUrl", VString "https://example.com/cat.png")])
           (VString "https://example.com/cat.png") VNull); reflexivity.
Defined.

(** ** What the validator lets through *)

Lemma strip_leading_pad (pad l : list ascii) :
  forallb URL.is_c0_control_or_space pad = true ->
  URL.strip_leading (pad ++ l)%list = URL.strip_leading l.
Proof.
  induction pad as [|c pad IH]; simpl; [reflexivity|].
  intro H. apply andb_prop in H as [Hc Hpad]. rewrite Hc. exact (IH Hpad).
Qed.

Lemma strip_trailing_pad (l pad : list ascii) :
  forallb URL.is_c0_control_or_space pad = true ->
  URL.strip_leading (rev (URL.strip_leading (l ++ pad)%list))
  = URL.strip_leading (rev (URL.strip_leading l)).
Proof.
  intro Hpad.
  assert (Hrev : forallb URL.is_c0_control_or_space (rev pad) = true).
  { rewrite forallb_forall in *. intros c Hc. apply Hpad, in_rev, Hc. }
  induction l as [|c l IH]; simpl.
  - pose proof (strip_leading_pad pad [] Hpad) as H.
    rewrite app_nil_r in H. rewrite H. reflexivity.
  - destruct (URL.is_c0_control_or_space c); [exact IH|].
    simpl. rewrite rev_app_distr, <- app_assoc.
    apply strip_leading_pad, Hrev.
Qed.

Lemma strip_pad (pad1 l pad2 : list ascii) :
  forallb URL.is_c0_control_or_space pad1 = true ->
  forallb URL.is_c0_control_or_space pad2 = true ->
  URL.strip (pad1 ++ l ++ pad2)%list = URL.strip l.
Proof.
  intros H1 H2. unfold URL.strip.
  rewrite (strip_leading_pad pad1 _ H1), (strip_trailing_pad l pad2 H2).
  reflexivity.
Qed.

Lemma list_ascii_of_string_app (a b : string) :
  list_ascii_of_string (a ++ b)
  = (list_ascii_of_string a ++ list_ascii_of_string b)%list.
Proof. induction a as [|c a IH]; simpl; [reflexivity|]. rewrite IH. reflexivity. Qed.

(** The parser does not see the white space around its input. *)
Lemma basic_URL_parse_pad {engine : Engine} (pad1 s pad2 : string) :
  forallb URL.is_c0_control_or_space (list_ascii_of_string pad1) = true ->
  forallb URL.is_c0_control_or_space (list_ascii_of_string pad2) = true ->
  URL.basic_URL_parse (pad1 ++ s ++ pad2) = URL.basic_URL_parse s.
Proof.
  intros H1 H2. unfold URL.basic_URL_parse.
  rewrite !list_ascii_of_string_app, (strip_pad _ _ _ H1 H2). reflexivity.
Qed.

Lemma append_not_empty (a b c : string) : b <> "" -> a ++ b ++ c <> "".
Proof.
  intros Hb H. destruct a; [|discriminate H].
  destruct b; [apply Hb; reflexivity|discriminate H].
Qed.

(** X13.  The validation ignores white space and control characters
    around the URL, and the handler does not: when a string passes,
    so does the same string with such characters before and after it,
    and the vision client is handed the padded string as it came. *)
Theorem padded_URL_is_forwarded_untrimmed {engine : Engine}
    (visionProcessor : client) (API_BASE_URL : option string)
    (ep : endpoint) (body : value) (pad1 s pad2 : string) :
  Get body "imageUrl" = Normal (VString (pad1 ++ s ++ pad2)) ->
  forallb URL.is_c0_control_or_space (list_ascii_of_string pad1) = true ->
  forallb URL.is_c0_control_or_space (list_ascii_of_string pad2) = true ->
  passes_validation (VString s) = true ->
  passes_validation (VString (pad1 ++ s ++ pad2)) = true
  /\ calls (post visionProcessor API_BASE_URL ep body)
     = [call_of ep (VString (pad1 ++ s ++ pad2))].
Proof.
  intros Hfield H1 H2 Hvalid.
  assert (Hpadded : passes_validation (VString (pad1 ++ s ++ pad2)) = true).
  { unfold passes_validation, new_URL in *. simpl ToString in *. cbv iota in *.
    rewrite (basic_URL_parse_pad pad1 s pad2 H1 H2).
    apply andb_prop in Hvalid as [Hs Hparse]. rewrite Hparse, andb_true_r.
    apply ToBoolean_string, append_not_empty.
    intro E. subst s. discriminate Hs. }
  split; [exact Hpadded|].
  exact (post_calls visionProcessor API_BASE_URL ep body _ Hfield Hpadded).
Qed.

Lemma padded_URL_is_forwarded_untrimmed_witness :
  let padded := VString ("  " ++ "https://example.com/cat.png" ++ " ") in
  let body := VObject [("imageUrl", padded)] in
  Get body "imageUrl" = Normal padded
  /\ forallb URL.is_c0_control_or_space (list_ascii_of_string "  ") = true
  /\ forallb URL.is_c0_control_or_space (list_ascii_of_string " ") = true
  /\ @passes_validation plain_engine (VString "https://example.com/cat.png") = true
  /\ @passes_validation plain_engine padded = true
  /\ calls (@post plain_engine (resolving VNull) None describe body)
     = [describeImage (VString "  https://example.com/cat.png ")].
Proof.
  cbv zeta. split; [reflexivity|]. split; [reflexivity|]. split; [reflexivity|].
  split; [reflexivity|].
  apply (@padded_URL_is_forwarded_untrimmed plain_engine (resolving VNull) None
           describe
           (VObject [("imageUrl",
                      VString ("  " ++ "https://example.com/cat.png" ++ " "))])
           "  " "https://example.com/cat.png" " "); reflexivity.
Defined.

Lemma scheme_state_scheme {engine : Engine} (input buffer : list ascii)
    (u : URL.url) :
  URL.scheme_state input buffer = Some u ->
  exists rest, URL.scheme u = string_of_list_ascii (buffer ++ rest)%list.
Proof.
  revert buffer. induction input as [|c rest IH]; intros buffer; simpl.
  - discriminate.
  - destruct (_ || _).
    + intro H. destruct (IH _ H) as [rest' E]. rewrite <- app_assoc in E.
      eexists. exact E.
    + destruct (Ascii.eqb c ":"); [|discriminate].
      intro H. apply scheme_done_host in H as [Hscheme _].
      exists []. rewrite app_nil_r. exact Hscheme.
Qed.

(** X14.  Every string that passes the validation parses to a URL with a
    scheme that is not empty; and when that scheme is [http], [https],
    [ws], [wss] or [ftp], the URL has a host. *)
Theorem accepted_URL_has_a_scheme {engine : Engine} (s : string) :
  passes_validation (VString s) = true ->
  exists u,
    new_URL (VString s) = Normal u
    /\ URL.scheme u <> ""
    /\ (In (URL.scheme u) ["http"; "https"; "ws"; "wss"; "ftp"] ->
        has_host u = true).
Proof.
  intro Hvalid. apply passes_validation_inv in Hvalid as [_ [u Hu]].
  exists u. split; [exact Hu|].
  unfold new_URL in Hu. simpl in Hu.
  destruct (URL.basic_URL_parse s) as [u'|] eqn:Hparse; [|discriminate Hu].
  inversion Hu; subst u'. split.
  - unfold URL.basic_URL_parse, URL.scheme_start_state in Hparse.
    destruct (filter _ _) as [|c rest]; [discriminate|].
    destruct (URL.is_alpha c); [|discriminate].
    apply scheme_state_scheme in Hparse as [rest' ->]. discriminate.
  - intro Hin. apply (special_URL_has_host s u Hparse).
    simpl in Hin.
    destruct Hin as [<-|[<-|[<-|[<-|[<-|[]]]]]]; discriminate.
Qed.

Lemma accepted_URL_has_a_scheme_witness :
  @passes_validation plain_engine (VString "https://example.com/cat.png") = true
  /\ exists u,
       @new_URL plain_engine (VString "https://example.com/cat.png") = Normal u
       /\ URL.scheme u <> ""
       /\ (In (URL.scheme u) ["http"; "https"; "ws"; "wss"; "ftp"] ->
           has_host u = true).
Proof.
  split; [reflexivity|].
  apply (@accepted_URL_has_a_scheme plain_engine "https://example.com/cat.png").
  reflexivity.
Defined.

(** X15.  [checkImageUrl] destructures [req.body] with no guard: when
    the body is [undefined] or [null] the middleware throws a
    [TypeError] before it writes anything and before [next] is called.
    No endpoint then answers with its JSON 400: the error goes to
    Express's final handler, which answers 500 with an error page, and no
    call is made. *)
Theorem missing_body_is_not_a_validation_error {engine : Engine}
    (visionProcessor : client) (API_BASE_URL : option string)
    (ep : endpoint) (body : value) :
  is_nullish body = true ->
  (exists message : string,
      forall next : M unit,
        checkImageUrl next (incoming body)
        = (Throw (VError "TypeError" message), incoming body))
  /\ (exists e,
        response (post visionProcessor API_BASE_URL ep body)
        = (500%Z, Some (ErrorPage e)))
  /\ calls (post visionProcessor API_BASE_URL ep body) = [].
Proof.
  intro Hnullish. rewrite post_route.
  destruct body; try discriminate Hnullish;
    (split; [eexists; intro next; reflexivity|split; [eexists|]; reflexivity]).
Qed.

Lemma missing_body_is_not_a_validation_error_witness :
  is_nullish VUndefined = true
  /\ (exists message : string,
        forall next : M unit,
          @checkImageUrl plain_engine next (incoming VUndefined)
          = (Throw (VError "TypeError" message), incoming VUndefined))
  /\ (exists e,
        response (@post plain_engine (resolving VNull) None tags VUndefined)
        = (500%Z, Some (ErrorPage e)))
  /\ calls (@post plain_engine (resolving VNull) None tags VUndefined) = [].
Proof.
  split; [reflexivity|].
  apply (@missing_body_is_not_a_validation_error plain_engine (resolving VNull) None
           tags VUndefined).
  reflexivity.
Defined.

(** ** The root route and the documentation settings *)

(** X16.  The documentation link of [GET /] and the server URL of
    [apiDocConfig] are built from the same variable with two different
    fallbacks.  When [API_BASE_URL] is set and not empty, the link is
    the server URL followed by [/api-docs]; when it is unset or empty,
    the link is the server URL followed by [//api-docs], with two
    slashes.  Either way [GET /] makes no call. *)
Theorem documentation_link_and_server_url {engine : Engine}
    (visionProcessor : client) (API_BASE_URL : option string) (body : value) :
  exists (w : world) (fields : list (string * value)) (link server : string),
    app visionProcessor API_BASE_URL GET "/" body = Some w
    /\ sent w = Some (JsonBody (VObject fields))
    /\ lookup "documentation" fields = Some (VString link)
    /\ server_url (apiDocConfig API_BASE_URL) = Normal (VString server)
    /\ link
       = server ++ (match API_BASE_URL with
                    | Some "" | None => "//api-docs"
                    | Some _ => "/api-docs"
                    end)
    /\ calls w = [].
Proof.
  destruct API_BASE_URL as [[|c s]|];
    do 4 eexists; repeat (split; [reflexivity|]); reflexivity.
Qed.
